(** * Timeline aggregation for year-recap heatmaps

    A shallow embedding of [backend/services/timeline_aggregator.py]
    (class [TimelineAggregator]) and the properties of its result.

    Values read by [json.load] are modelled by [json]; the dictionaries the
    aggregator builds are modelled by [pyval].  JSON numbers are integers in
    this model, as the timestamps, coordinates and participant indices of
    the timeline records are; a record with a number that is not an integer
    is outside it.  The aggregator's arithmetic on them is
    [timestamp // 60000] and comparisons with a participant index.  The one
    float the code creates, [round(count / total_matches, 2)], is kept as
    the expression [Round2Div count total_matches], which [float_value]
    evaluates in binary64. *)

From Stdlib Require Import ZArith String List Lia.
From Stdlib Require Import SpecFloat DecimalString.
From stdpp Require Import gmap strings list fin_maps.

Set Warnings "-register-all".

Local Open Scope string_scope.
Local Open Scope list_scope.
Local Open Scope Z_scope.

(** ** Python values *)

(** What [json.load] returns: [None], [bool], [int], [str], [list] and
    [dict] with string keys (an association list in insertion order). *)
Inductive json : Type :=
| JNull
| JBool (b : bool)
| JInt (z : Z)
| JStr (s : string)
| JArr (l : list json)
| JObj (d : list (string * json)).

(** The float [round(count / total, 2)]. *)
Inductive pyfloat : Type :=
| Round2Div (count total : Z).

(** Values the aggregator returns: values passed through from the input
    ([VJson]), floats, and the lists and dictionaries it builds itself. *)
Inductive pyval : Type :=
| VJson (j : json)
| VFloat (f : pyfloat)
| VList (l : list pyval)
| VDict (d : list (string * pyval)).

Definition VInt (z : Z) : pyval := VJson (JInt z).
Definition VStr (s : string) : pyval := VJson (JStr s).

(** Lookup in a dictionary with string keys. *)
Fixpoint assoc {A : Type} (k : string) (d : list (string * A)) : option A :=
  match d with
  | [] => None
  | (k', v) :: d' => if String.eqb k' k then Some v else assoc k d'
  end.

(** [bool(v)]. *)
Definition truthy (v : json) : bool :=
  match v with
  | JNull => false
  | JBool b => b
  | JInt z => negb (z =? 0)
  | JStr s => negb (String.eqb s "")
  | JArr l => match l with [] => false | _ => true end
  | JObj d => match d with [] => false | _ => true end
  end.

(** Statements that can raise are in the [option] monad: [None] is a raised
    exception (every exception below is caught by an [except Exception]). *)

(** [v[k]] for a string key [k]: [KeyError] on a dictionary without the
    key, [TypeError] on every other value. *)
Definition subscript (v : json) (k : string) : option json :=
  match v with
  | JObj d => assoc k d
  | _ => None
  end.

(** [v.get(k, dflt)]: [AttributeError] unless [v] is a dictionary. *)
Definition py_get (v : json) (k : string) (dflt : json) : option json :=
  match v with
  | JObj d => Some (default dflt (assoc k d))
  | _ => None
  end.

(** The items [for x in v] visits: the elements of a list, the keys of a
    dictionary, the characters of a string; [TypeError] otherwise. *)
Definition py_iter (v : json) : option (list json) :=
  match v with
  | JArr l => Some l
  | JObj d => Some (map (λ kv, JStr (fst kv)) d)
  | JStr s => Some (map (λ a, JStr (String a EmptyString)) (list_ascii_of_string s))
  | _ => None
  end.

(** The integer value of an [int] or a [bool] ([bool] is a subclass of
    [int]). *)
Definition as_int (v : json) : option Z :=
  match v with
  | JInt z => Some z
  | JBool b => Some (Z.b2z b)
  | _ => None
  end.

(** [v == p] for an integer [p]. *)
Definition py_eq_int (v : json) (p : Z) : bool :=
  match as_int v with
  | Some z => z =? p
  | None => false
  end.

(** [v == s] for a string [s]. *)
Definition py_eq_str (v : json) (s : string) : bool :=
  match v with
  | JStr t => String.eqb t s
  | _ => false
  end.

(** [p in v] for an integer [p]: membership in a list, key membership in a
    dictionary (its keys are strings), [TypeError] otherwise. *)
Definition py_in_int (p : Z) (v : json) : option bool :=
  match v with
  | JArr l => Some (existsb (λ x, py_eq_int x p) l)
  | JObj _ => Some false
  | _ => None
  end.

(** [v // d] for a positive integer [d] and a value of [json]: floor
    division of an [int] or a [bool]; [TypeError] on [None], a string, a
    list or a dictionary. *)
Definition floordiv (v : json) (d : Z) : option Z :=
  z ← as_int v; Some (z `div` d).

(** ** Dictionary keys *)

(** The hashable values of [json]; [True] and [1] are the same key. *)
Inductive pykey : Type :=
| KNone
| KInt (z : Z)
| KStr (s : string).

Global Instance pykey_eq_dec : EqDecision pykey.
Proof. solve_decision. Defined.

Global Instance pykey_countable : Countable pykey.
Proof.
  refine (inj_countable'
    (λ k, match k with
          | KNone => inl ()
          | KInt z => inr (inl z)
          | KStr s => inr (inr s)
          end)
    (λ x, match x with
          | inl _ => KNone
          | inr (inl z) => KInt z
          | inr (inr s) => KStr s
          end) _).
  by intros [].
Defined.

(** [hash(v)] succeeds: [None] is the [TypeError] of an unhashable value. *)
Definition hash_key (v : json) : option pykey :=
  match v with
  | JNull => Some KNone
  | JBool b => Some (KInt (Z.b2z b))
  | JInt z => Some (KInt z)
  | JStr s => Some (KStr s)
  | JArr _ | JObj _ => None
  end.

(** ** The four categories *)

Inductive category : Type := deaths | kills | assists | objectives.

Global Instance category_eq_dec : EqDecision category.
Proof. solve_decision. Defined.

Definition category_key (c : category) : string :=
  match c with
  | deaths => "deaths"
  | kills => "kills"
  | assists => "assists"
  | objectives => "objectives"
  end.

(** A dictionary with exactly the four category keys. *)
Record per_category (A : Type) : Type := PerCategory {
  of_deaths : A;
  of_kills : A;
  of_assists : A;
  of_objectives : A
}.
Arguments PerCategory {A} _ _ _ _.
Arguments of_deaths {A} _.
Arguments of_kills {A} _.
Arguments of_assists {A} _.
Arguments of_objectives {A} _.

Definition cat_get {A : Type} (c : category) (d : per_category A) : A :=
  match c with
  | deaths => of_deaths d
  | kills => of_kills d
  | assists => of_assists d
  | objectives => of_objectives d
  end.

Definition cat_upd {A : Type} (c : category) (f : A → A) (d : per_category A)
  : per_category A :=
  match c with
  | deaths => PerCategory (f (of_deaths d)) (of_kills d) (of_assists d) (of_objectives d)
  | kills => PerCategory (of_deaths d) (f (of_kills d)) (of_assists d) (of_objectives d)
  | assists => PerCategory (of_deaths d) (of_kills d) (f (of_assists d)) (of_objectives d)
  | objectives => PerCategory (of_deaths d) (of_kills d) (of_assists d) (f (of_objectives d))
  end.

Definition cat_all {A : Type} (x : A) : per_category A := PerCategory x x x x.

Definition cat_map {A B : Type} (f : A → B) (d : per_category A) : per_category B :=
  PerCategory (f (of_deaths d)) (f (of_kills d)) (f (of_assists d)) (f (of_objectives d)).

(** ** Minute buckets: [defaultdict(int)] keyed by minute *)

(** [buckets[minute] += 1]. *)
Definition bump (minute : Z) (buckets : gmap Z Z) : gmap Z Z :=
  <[minute := default 0 (buckets !! minute) + 1]> buckets.

(** [max(minute_buckets.keys()) if minute_buckets else 0]. *)
Definition max_keys (minute_buckets : gmap Z Z) : Z :=
  match (map_to_list minute_buckets).*1 with
  | [] => 0
  | k :: ks => foldl Z.max k ks
  end.

(** One entry of a formatted series. *)
Definition timeline_entry (minute count cumulative total_matches : Z) : pyval :=
  VDict [("minute", VInt minute);
         ("count", VInt count);
         ("cumulative", VInt cumulative);
         ("average_per_game", VFloat (Round2Div count total_matches))].

(** The body of [for minute in range(0, max_minute + 1)], with the running
    [cumulative] as accumulator. *)
Fixpoint format_loop (minute_buckets : gmap Z Z) (total_matches : Z)
    (minutes : list Z) (cumulative : Z) : list pyval :=
  match minutes with
  | [] => []
  | minute :: rest =>
      let count := default 0 (minute_buckets !! minute) in
      let cumulative := cumulative + count in
      timeline_entry minute count cumulative total_matches
        :: format_loop minute_buckets total_matches rest cumulative
  end.

(** The caller passes [len(puuid_to_participant_map) or 1], never 0.  With
    [total_matches] 0 the division at the first entry raises
    [ZeroDivisionError]; here that entry carries an average that has no
    value ([float_value] gives [None]). *)
Definition _format_timeline_data (minute_buckets : gmap Z Z) (total_matches : Z)
  : list pyval :=
  if decide (minute_buckets = ∅) then []
  else
    let max_minute := max_keys minute_buckets in
    format_loop minute_buckets total_matches (seqZ 0 (max_minute + 1)) 0.

(** ** The corpus *)

(** A file the aggregator opens: its name and what [json.load] returns for
    it, [None] when [open] or [json.load] raises.  The corpus is fixed for
    one invocation, so a file reads the same in both passes. *)
Record file : Type := File {
  name : string;
  load : option json
}.

(** The two directory listings of one invocation:
    [list(self.timelines_dir.glob("timeline_*.json"))] and, for each match
    id, [list(self.matches_dir.glob(f"match_*{match_id}.json"))].  For a
    match id on which that glob itself raises (a pattern with [**]),
    [match_files] is the empty list: the exception leaves the resolver and
    is caught by the first loop, with the effect of a [None] result.
    [timeline_files] stands for any list of files; the lists the glob can
    produce are those of [glob_timelines]. *)
Record corpus : Type := Corpus {
  timeline_files : list file;
  match_files : json → list file
}.

(** Ghost trace of the calls made during one invocation: a resolution of the
    player in a match, and the classification of one event. *)
Inductive call : Type :=
| Resolve (match_id : json) (target_puuid : string)
| Classify (event : json) (player_participant_id : Z).

(** ** Participant resolution *)

(** [for idx, puuid in enumerate(participants, 1)]: the index of the first
    entry equal to [target_puuid]. *)
Fixpoint find_puuid (participants : list json) (target_puuid : string) (idx : Z)
  : option Z :=
  match participants with
  | [] => None
  | puuid :: rest =>
      if py_eq_str puuid target_puuid then Some idx
      else find_puuid rest target_puuid (idx + 1)
  end.

(** Returns [None] for Python's [None], that is when no index is
    returned.  The glob is outside the [try]; where it raises, [match_files]
    is empty and the result here is [None] as well. *)
Definition _get_participant_id_for_puuid (c : corpus) (match_id : json)
    (target_puuid : string) : option Z :=
  match match_files c match_id with
  | [] => None
  | match_file :: _ =>
      let attempt :=
        match_data ← load match_file;
        metadata ← subscript match_data "metadata";
        participants ← subscript metadata "participants";
        entries ← py_iter participants;
        Some (find_puuid entries target_puuid 1) in
      match attempt with
      | Some found => found
      | None => None
      end
  end.

(** [timeline_data['metadata']['matchId']]. *)
Definition match_id_of (timeline_data : json) : option json :=
  metadata ← subscript timeline_data "metadata";
  subscript metadata "matchId".

(** One iteration of the first loop over [timeline_files]: the mapping from
    match id to participant id, and the trace. *)
Definition resolve_step (c : corpus) (target_puuid : string)
    (st : gmap pykey Z * list call) (timeline_file : file)
  : gmap pykey Z * list call :=
  if String.eqb (name timeline_file) "fetch_summary.json" then st
  else
    match load timeline_file ≫= match_id_of with
    | None => st
    | Some match_id =>
        let trace := st.2 ++ [Resolve match_id target_puuid] in
        match _get_participant_id_for_puuid c match_id target_puuid with
        | Some participant_id =>
            if participant_id =? 0 then (st.1, trace)
            else
              match hash_key match_id with
              | Some k => (<[k := participant_id]> st.1, trace)
              | None => (st.1, trace)
              end
        | None => (st.1, trace)
        end
    end.

Definition build_participant_map (c : corpus) (target_puuid : string)
  : gmap pykey Z * list call :=
  foldl (resolve_step c target_puuid) (∅, []) (timeline_files c).

(** ** Event processing *)

(** The [stats] dictionary. *)
Record stats_dict : Type := Stats {
  total_matches : Z;
  counts : per_category Z
}.

(** The three accumulators of the second loop, and the trace. *)
Record accum : Type := Accum {
  heatmap_data : per_category (list pyval);
  stats : stats_dict;
  timeline_stats : per_category (gmap Z Z);
  calls : list call
}.

(** The dictionary appended to a heatmap list; [peer_key] is the
    category-specific fifth key. *)
Definition heatmap_point (pos timestamp match_id : json) (peer_key : string)
    (peer : json) : option pyval :=
  x ← subscript pos "x";
  y ← subscript pos "y";
  Some (VDict [("x", VJson x);
               ("y", VJson y);
               ("timestamp", VJson timestamp);
               ("match_id", VJson match_id);
               (peer_key, VJson peer)]).

(** The three updates every branch makes: append the point, increment the
    counter, increment the minute bucket. *)
Definition record_event (cat : category) (point : pyval) (minute_bucket : Z)
    (a : accum) : accum :=
  {| heatmap_data := cat_upd cat (λ l, l ++ [point]) (heatmap_data a);
     stats := {| total_matches := total_matches (stats a);
                 counts := cat_upd cat (λ n, n + 1) (counts (stats a)) |};
     timeline_stats := cat_upd cat (bump minute_bucket) (timeline_stats a);
     calls := calls a |}.

(** [event.get(k)] on an event known to be a dictionary. *)
Definition field (event : json) (k : string) : json :=
  default JNull (py_get event k JNull).

(** [player_participant_id in event.get('assistingParticipantIds', [])]. *)
Definition in_assisting (player_participant_id : Z) (event : json) : option bool :=
  assisting ← py_get event "assistingParticipantIds" (JArr []);
  py_in_int player_participant_id assisting.

(** [a and b], where evaluating [b] can raise: [b] is evaluated only when
    [a] holds. *)
Definition py_and (a : bool) (b : option bool) : option bool :=
  if a then b else Some false.

(** The body of [for event in frame.get('events', [])]; [None] when it
    raises, which happens before any accumulator is updated. *)
Definition process_event (player_participant_id : Z) (match_id : json)
    (a : accum) (event : json) : option accum :=
  position ← py_get event "position" JNull;
  if negb (truthy position) then Some a
  else
    pos ← subscript event "position";
    timestamp ← subscript event "timestamp";
    minute_bucket ← floordiv timestamp 60000;
    type ← subscript event "type";
    if py_eq_str type "CHAMPION_KILL"
       && py_eq_int (field event "victimId") player_participant_id then
      point ← heatmap_point pos timestamp match_id "killer_id" (field event "killerId");
      Some (record_event deaths point minute_bucket a)
    else if py_eq_str type "CHAMPION_KILL"
            && py_eq_int (field event "killerId") player_participant_id then
      point ← heatmap_point pos timestamp match_id "victim_id" (field event "victimId");
      Some (record_event kills point minute_bucket a)
    else
      is_assist ← py_and (py_eq_str type "CHAMPION_KILL")
                         (in_assisting player_participant_id event);
      if (is_assist : bool) then
        point ← heatmap_point pos timestamp match_id "victim_id" (field event "victimId");
        Some (record_event assists point minute_bucket a)
      else if py_eq_str type "ELITE_MONSTER_KILL"
              && py_eq_int (field event "killerId") player_participant_id then
        point ← heatmap_point pos timestamp match_id "monster_type" (field event "monsterType");
        Some (record_event objectives point minute_bucket a)
      else if py_eq_str type "BUILDING_KILL" then
        assisted ← in_assisting player_participant_id event;
        if (assisted : bool)
           || py_eq_int (field event "killerId") player_participant_id then
          point ← heatmap_point pos timestamp match_id "building_type" (field event "buildingType");
          Some (record_event objectives point minute_bucket a)
        else Some a
      else Some a.

Definition log_call (k : call) (a : accum) : accum :=
  {| heatmap_data := heatmap_data a;
     stats := stats a;
     timeline_stats := timeline_stats a;
     calls := calls a ++ [k] |}.

(** [for event in ...]: the accumulators when the loop ends, and whether it
    ended by an exception. *)
Fixpoint process_events (player_participant_id : Z) (match_id : json)
    (a : accum) (events : list json) : accum * bool :=
  match events with
  | [] => (a, false)
  | event :: rest =>
      let a := log_call (Classify event player_participant_id) a in
      match process_event player_participant_id match_id a event with
      | None => (a, true)
      | Some a' => process_events player_participant_id match_id a' rest
      end
  end.

(** [for frame in timeline_data['info']['frames']]. *)
Fixpoint process_frames (player_participant_id : Z) (match_id : json)
    (a : accum) (frames : list json) : accum * bool :=
  match frames with
  | [] => (a, false)
  | frame :: rest =>
      match py_get frame "events" (JArr []) ≫= py_iter with
      | None => (a, true)
      | Some events =>
          let r := process_events player_participant_id match_id a events in
          if r.2 then r
          else process_frames player_participant_id match_id r.1 rest
      end
  end.

(** One iteration of the second loop over [timeline_files].  An exception
    ends the iteration; the accumulators keep what was added before it. *)
Definition process_timeline (puuid_to_participant_map : gmap pykey Z)
    (a : accum) (timeline_file : file) : accum :=
  if String.eqb (name timeline_file) "fetch_summary.json" then a
  else
    match load timeline_file with
    | None => a
    | Some timeline_data =>
        match match_id_of timeline_data with
        | None => a
        | Some match_id =>
            match hash_key match_id with
            | None => a
            | Some k =>
                match puuid_to_participant_map !! k with
                | None => a
                | Some player_participant_id =>
                    match (info ← subscript timeline_data "info";
                           frames ← subscript info "frames";
                           py_iter frames) with
                    | None => a
                    | Some frames =>
                        (process_frames player_participant_id match_id a frames).1
                    end
                end
            end
        end
    end.

(** ** The response *)

Definition stats_value (s : stats_dict) : pyval :=
  VDict [("total_matches", VInt (total_matches s));
         ("deaths_count", VInt (of_deaths (counts s)));
         ("kills_count", VInt (of_kills (counts s)));
         ("assists_count", VInt (of_assists (counts s)));
         ("objectives_count", VInt (of_objectives (counts s)))].

Definition per_category_value (d : per_category (list pyval)) : pyval :=
  VDict [("deaths", VList (of_deaths d));
         ("kills", VList (of_kills d));
         ("assists", VList (of_assists d));
         ("objectives", VList (of_objectives d))].

Definition response (player_puuid player_name : string) (s : stats_dict)
    (heatmap timeline : per_category (list pyval)) : pyval :=
  VDict [("player_puuid", VStr player_puuid);
         ("player_name", VStr player_name);
         ("stats", stats_value s);
         ("heatmap_data", per_category_value heatmap);
         ("timeline_data", per_category_value timeline)].

Definition _empty_response (puuid player_name : string) : pyval :=
  VDict [("player_puuid", VStr puuid);
         ("player_name", VStr player_name);
         ("stats", VDict [("total_matches", VInt 0);
                          ("deaths_count", VInt 0);
                          ("kills_count", VInt 0);
                          ("assists_count", VInt 0);
                          ("objectives_count", VInt 0)]);
         ("heatmap_data", VDict [("deaths", VList []);
                                 ("kills", VList []);
                                 ("assists", VList []);
                                 ("objectives", VList [])]);
         ("timeline_data", VDict [("deaths", VList []);
                                  ("kills", VList []);
                                  ("assists", VList []);
                                  ("objectives", VList [])])].

(** The accumulators before the second loop. *)
Definition initial_accum (puuid_to_participant_map : gmap pykey Z)
    (trace : list call) : accum :=
  {| heatmap_data := cat_all [];
     stats := {| total_matches := Z.of_nat (size puuid_to_participant_map);
                 counts := cat_all 0 |};
     timeline_stats := cat_all ∅;
     calls := trace |}.

(** [len(puuid_to_participant_map) or 1]. *)
Definition divisor (puuid_to_participant_map : gmap pykey Z) : Z :=
  let n := Z.of_nat (size puuid_to_participant_map) in
  if n =? 0 then 1 else n.

(** The accumulators after both loops, for a non-empty file list. *)
Definition aggregate (c : corpus) (target_puuid : string) : gmap pykey Z * accum :=
  let st := build_participant_map c target_puuid in
  (st.1, foldl (process_timeline st.1) (initial_accum st.1 st.2) (timeline_files c)).

(** The response and the trace of the calls made. *)
Definition generate_heatmap_data (c : corpus) (target_puuid player_name : string)
  : pyval * list call :=
  match timeline_files c with
  | [] => (_empty_response target_puuid player_name, [])
  | _ :: _ =>
      let r := aggregate c target_puuid in
      let total_matches := divisor r.1 in
      let timeline_data :=
        cat_map (λ b, _format_timeline_data b total_matches) (timeline_stats r.2) in
      (response target_puuid player_name (stats r.2) (heatmap_data r.2) timeline_data,
       calls r.2)
  end.

(** ** A worked example

    One timeline for match ["M1"], one frame, one champion kill at 65000 ms
    by participant 3, who is the target player. *)
Module Example1.

Definition kill_event : json :=
  JObj [("type", JStr "CHAMPION_KILL");
        ("timestamp", JInt 65000);
        ("killerId", JInt 3);
        ("victimId", JInt 7);
        ("position", JObj [("x", JInt 100); ("y", JInt 200)])].

Definition timeline (events : list json) : json :=
  JObj [("metadata", JObj [("matchId", JStr "M1")]);
        ("info", JObj [("frames", JArr [JObj [("events", JArr events)]])])].

Definition match_record : json :=
  JObj [("metadata",
         JObj [("participants", JArr [JStr "a"; JStr "b"; JStr "me"; JStr "d"])])].

Definition matches (match_id : json) : list file :=
  if py_eq_str match_id "M1" then [File "match_M1.json" (Some match_record)]
  else [].

Definition corpus_of (events : list json) : corpus :=
  Corpus [File "timeline_M1.json" (Some (timeline events))] matches.

Definition kill_point : pyval :=
  VDict [("x", VInt 100); ("y", VInt 200); ("timestamp", VInt 65000);
         ("match_id", VStr "M1"); ("victim_id", VInt 7)].

(** Malformed data: participant 3 is victim, killer and assistant. *)
Definition contested_fields : list (string * json) :=
  [("type", JStr "CHAMPION_KILL");
   ("timestamp", JInt 125000);
   ("killerId", JInt 3);
   ("victimId", JInt 3);
   ("assistingParticipantIds", JArr [JInt 3; JInt 4]);
   ("position", JObj [("x", JInt 10); ("y", JInt 20)])].

(** The target player dies at 5000 ms. *)
Definition death_event : json :=
  JObj [("type", JStr "CHAMPION_KILL");
        ("timestamp", JInt 5000);
        ("killerId", JInt 8);
        ("victimId", JInt 3);
        ("position", JObj [("x", JInt 1); ("y", JInt 2)])].

(** An event with a position and no timestamp: [event['timestamp']]
    raises [KeyError]. *)
Definition broken_event : json :=
  JObj [("type", JStr "CHAMPION_KILL");
        ("killerId", JInt 3);
        ("position", JObj [("x", JInt 1); ("y", JInt 2)])].

(** A kill by the target player stamped one millisecond before zero. *)
Definition early_event : json :=
  JObj [("type", JStr "CHAMPION_KILL");
        ("timestamp", JInt (-1));
        ("killerId", JInt 3);
        ("victimId", JInt 7);
        ("position", JObj [("x", JInt 100); ("y", JInt 200)])].

(** A kill by the target player with no position, and the same with an
    empty position object. *)
Definition unplaced_fields : list (string * json) :=
  [("type", JStr "CHAMPION_KILL");
   ("timestamp", JInt 65000);
   ("killerId", JInt 3);
   ("victimId", JInt 7)].

Definition empty_position_fields : list (string * json) :=
  ("position", JObj []) :: unplaced_fields.

(** A timeline file that is not JSON. *)
Definition corrupt_file : file := File "timeline_M2.json" None.

Definition some_accum : accum :=
  {| heatmap_data := PerCategory [] [kill_point] [] [];
     stats := Stats 1 (PerCategory 0 1 0 0);
     timeline_stats := PerCategory ∅ (bump 1 ∅) ∅ ∅;
     calls := [] |}.

End Example1.

(** ** Reading a response *)

Definition vget (k : string) (v : pyval) : option pyval :=
  match v with
  | VDict d => assoc k d
  | _ => None
  end.

Definition vlist (v : pyval) : option (list pyval) :=
  match v with
  | VList l => Some l
  | _ => None
  end.

Definition vint (v : pyval) : option Z :=
  match v with
  | VJson (JInt z) => Some z
  | _ => None
  end.

Definition dict_keys (v : pyval) : list string :=
  match v with
  | VDict d => d.*1
  | _ => []
  end.

(** [r['heatmap_data'][cat]], [r['timeline_data'][cat]],
    [r['stats'][cat + '_count']] and [r['stats']['total_matches']]. *)
Definition heatmap_of (r : pyval) (cat : category) : option (list pyval) :=
  d ← vget "heatmap_data" r; l ← vget (category_key cat) d; vlist l.

Definition timeline_of (r : pyval) (cat : category) : option (list pyval) :=
  d ← vget "timeline_data" r; l ← vget (category_key cat) d; vlist l.

Definition counter_of (r : pyval) (cat : category) : option Z :=
  d ← vget "stats" r; n ← vget (category_key cat +:+ "_count") d; vint n.

Definition total_matches_of (r : pyval) : option Z :=
  d ← vget "stats" r; n ← vget "total_matches" d; vint n.

(** The fields of a series entry and of a heatmap point. *)
Definition entry_minute (e : pyval) : Z := default 0 (n ← vget "minute" e; vint n).
Definition entry_count (e : pyval) : Z := default 0 (n ← vget "count" e; vint n).
Definition entry_cumulative (e : pyval) : Z := default 0 (n ← vget "cumulative" e; vint n).

Definition point_timestamp (p : pyval) : Z :=
  match vget "timestamp" p with
  | Some (VJson t) => default 0 (as_int t)
  | _ => 0
  end.

Definition point_minute (p : pyval) : Z := point_timestamp p `div` 60000.

Definition sum_counts (series : list pyval) : Z :=
  foldr (λ e acc, entry_count e + acc) 0 series.

(** ** Specification vocabulary *)

(** The buckets after [buckets[m] += 1] for each [m] of [minutes], in order. *)
Definition record_minutes (minutes : list Z) : gmap Z Z :=
  foldl (λ b m, bump m b) ∅ minutes.

(** How many of [minutes] are [m]: the raw count at minute [m]. *)
Definition raw_count (minutes : list Z) (m : Z) : Z :=
  Z.of_nat (length (filter (λ k, k = m) minutes)).

(** The raw counts of minutes [0] to [m] added up. *)
Definition running_sum (minutes : list Z) (m : Z) : Z :=
  foldr (λ i acc, raw_count minutes i + acc) 0 (seqZ 0 (m + 1)).

(** The counts of [b] over [len] minutes from [s] added up. *)
Definition range_sum (b : gmap Z Z) (s len : Z) : Z :=
  foldr (λ i acc, default 0 (b !! i) + acc) 0 (seqZ s len).

(** The fields of a dictionary are exactly [names], in any order. *)
Definition named_exactly (names : list string) (v : pyval) : Prop :=
  dict_keys v ≡ₚ names.

(** The names a response uses: for the player's identifier, the summary,
    the two substructures, and the average of a series entry. *)
Definition shape_named (id_key summary_key heatmap_key timeline_key average_key : string)
    (r : pyval) : Prop :=
  named_exactly [id_key; "player_name"; summary_key; heatmap_key; timeline_key] r
  ∧ (∃ s, vget summary_key r = Some s
          ∧ named_exactly ["total_matches"; "deaths_count"; "kills_count";
                           "assists_count"; "objectives_count"] s)
  ∧ (∃ t, vget timeline_key r = Some t
          ∧ ∀ cat series e,
              (l ← vget (category_key cat) t; vlist l) = Some series →
              e ∈ series →
              named_exactly ["minute"; "count"; "cumulative"; average_key] e).

(** An event dictionary without the key [k]. *)
Definition dict_del {A : Type} (k : string) (d : list (string * A))
  : list (string * A) :=
  filter (λ kv, negb (String.eqb kv.1 k)) d.

(** No recorded point has a negative timestamp. *)
Definition timestamps_nonneg (points : list pyval) : bool :=
  forallb (λ p, 0 <=? point_timestamp p) points.

(** A timeline record whose failure is in [open], [json.load] or
    [timeline_data['metadata']['matchId']]. *)
Definition unreadable (f : file) : bool :=
  match load f ≫= match_id_of with
  | None => true
  | Some _ => false
  end.

(** Whether the second loop's iteration for [timeline_file] ends by an
    exception. *)
Definition second_pass_raises (puuid_to_participant_map : gmap pykey Z)
    (a : accum) (timeline_file : file) : bool :=
  if String.eqb (name timeline_file) "fetch_summary.json" then false
  else
    match load timeline_file with
    | None => true
    | Some timeline_data =>
        match match_id_of timeline_data with
        | None => true
        | Some match_id =>
            match hash_key match_id with
            | None => true
            | Some k =>
                match puuid_to_participant_map !! k with
                | None => false
                | Some player_participant_id =>
                    match (info ← subscript timeline_data "info";
                           frames ← subscript info "frames";
                           py_iter frames) with
                    | None => true
                    | Some frames =>
                        (process_frames player_participant_id match_id a frames).2
                    end
                end
            end
        end
    end.

(** The invariant of the second loop: for every category the buckets are
    those of the recorded points' minutes, and the counter is their number. *)
Definition consistent (a : accum) : Prop :=
  ∀ cat,
    cat_get cat (timeline_stats a)
    = record_minutes (point_minute <$> cat_get cat (heatmap_data a))
    ∧ cat_get cat (counts (stats a))
      = Z.of_nat (length (cat_get cat (heatmap_data a))).

(** ** Vocabulary for the resolver and the first loop *)

(** The entries the resolver's loop visits: those of
    [match_data['metadata']['participants']] in the first file the glob
    returns; [None] when there is no such file or reading it raises. *)
Definition roster (c : corpus) (match_id : json) : option (list json) :=
  match match_files c match_id with
  | [] => None
  | match_file :: _ =>
      match_data ← load match_file;
      metadata ← subscript match_data "metadata";
      participants ← subscript metadata "participants";
      py_iter participants
  end.

(** The key and participant id the first loop stores for a timeline file,
    if it stores one. *)
Definition resolved_entry (c : corpus) (target_puuid : string) (f : file)
  : option (pykey * Z) :=
  if String.eqb (name f) "fetch_summary.json" then None
  else
    timeline_data ← load f;
    match_id ← match_id_of timeline_data;
    participant_id ← _get_participant_id_for_puuid c match_id target_puuid;
    if participant_id =? 0 then None
    else k ← hash_key match_id; Some (k, participant_id).

(** The mapping after the first loop's iteration for [f]. *)
Definition store_resolved (c : corpus) (target_puuid : string)
    (m : gmap pykey Z) (f : file) : gmap pykey Z :=
  match resolved_entry c target_puuid f with
  | Some (k, p) => <[k := p]> m
  | None => m
  end.

(** ** Vocabulary for events *)

(** What processing one event does to the accumulators, whatever they
    hold: it raises, it leaves them as they are, or it records one point. *)
Inductive event_effect : Type :=
| Raises
| Ignored
| Recorded (cat : category) (point : pyval) (minute : Z).

Definition apply_effect (e : event_effect) (a : accum) : option accum :=
  match e with
  | Raises => None
  | Ignored => Some a
  | Recorded cat point minute => Some (record_event cat point minute a)
  end.

(** The fifth key of a point, by category. *)
Definition peer_key_of (cat : category) (k : string) : Prop :=
  match cat with
  | deaths => k = "killer_id"
  | kills | assists => k = "victim_id"
  | objectives => k = "monster_type" ∨ k = "building_type"
  end.

(** The dictionary of a heatmap point. *)
Definition point_dict (x y timestamp match_id : json) (peer_key : string)
    (peer : json) : pyval :=
  VDict [("x", VJson x);
         ("y", VJson y);
         ("timestamp", VJson timestamp);
         ("match_id", VJson match_id);
         (peer_key, VJson peer)].

(** A recorded point is made of the event's own position and timestamp and
    of the match id of the record being processed. *)
Definition effect_sound (match_id event : json) (e : event_effect) : Prop :=
  match e with
  | Recorded cat point minute =>
      ∃ pos x y timestamp peer_key peer,
        subscript event "position" = Some pos
        ∧ subscript pos "x" = Some x
        ∧ subscript pos "y" = Some y
        ∧ subscript event "timestamp" = Some timestamp
        ∧ floordiv timestamp 60000 = Some minute
        ∧ peer_key_of cat peer_key
        ∧ point = point_dict x y timestamp match_id peer_key peer
  | _ => True
  end.

(** The coordinates, the timestamp and the minute bucket of an event that
    has a position with [x] and [y] and an integer timestamp. *)
Definition placement (event : json) : option (json * json * json * Z) :=
  pos ← subscript event "position";
  x ← subscript pos "x";
  y ← subscript pos "y";
  timestamp ← subscript event "timestamp";
  minute ← floordiv timestamp 60000;
  Some (x, y, timestamp, minute).

(** [event['timestamp'] // 60000], when both succeed. *)
Definition minute_of (event : json) : option Z :=
  timestamp ← subscript event "timestamp"; floordiv timestamp 60000.

(** Two accumulators that differ in the trace only. *)
Definition same_outputs (a b : accum) : Prop :=
  heatmap_data a = heatmap_data b
  ∧ stats a = stats b
  ∧ timeline_stats a = timeline_stats b.

(** The number of points with a timestamp that is not negative. *)
Definition nonneg_points (points : list pyval) : Z :=
  Z.of_nat (length (filter (λ p, 0 ≤ point_timestamp p) points)).

(** Every point of the accumulators has the five keys of its category and
    the match id of a match in the participant map. *)
Definition points_from_resolved (pmap : gmap pykey Z) (a : accum) : Prop :=
  ∀ cat point,
    point ∈ cat_get cat (heatmap_data a) →
    ∃ x y timestamp match_id peer_key peer k,
      point = point_dict x y timestamp match_id peer_key peer
      ∧ peer_key_of cat peer_key
      ∧ hash_key match_id = Some k
      ∧ is_Some (pmap !! k).

(** The second accumulators extend the first: every heatmap list is
    extended at its end and no counter decreases. *)
Definition grows (a a' : accum) : Prop :=
  ∀ cat,
    cat_get cat (heatmap_data a) `prefix_of` cat_get cat (heatmap_data a')
    ∧ cat_get cat (counts (stats a)) ≤ cat_get cat (counts (stats a')).

(** ** More example data *)
Module Example2.

Definition position : json := JObj [("x", JInt 5); ("y", JInt 6)].


(** The same kill with [assistingParticipantIds] set to [null]. *)
Definition null_assist_event : json :=
  JObj [("type", JStr "CHAMPION_KILL");
        ("timestamp", JInt 130000);
        ("killerId", JInt 5);
        ("victimId", JInt 7);
        ("assistingParticipantIds", JNull);
        ("position", position)].

(** A dragon killed by participant 4, participant 3 assisting. *)
Definition monster_event : json :=
  JObj [("type", JStr "ELITE_MONSTER_KILL");
        ("timestamp", JInt 600000);
        ("killerId", JInt 4);
        ("assistingParticipantIds", JArr [JInt 3]);
        ("monsterType", JStr "DRAGON");
        ("position", position)].


(** A dragon killed by participant 3. *)
Definition own_monster_event : json :=
  JObj [("type", JStr "ELITE_MONSTER_KILL");
        ("timestamp", JInt 600000);
        ("killerId", JInt 3);
        ("monsterType", JStr "DRAGON");
        ("position", position)].

(** An event of another type, with a position that has no coordinates. *)
Definition other_event : json :=
  JObj [("type", JStr "CHAMPION_SPECIAL_KILL");
        ("timestamp", JInt 130000);
        ("killerId", JInt 3);
        ("position", JObj [("z", JInt 1)])].

(** A timeline of a match that has no match file. *)
Definition unknown_match_file : file :=
  File "timeline_M9.json"
    (Some (JObj [("metadata", JObj [("matchId", JStr "M9")]);
                 ("info",
                  JObj [("frames",
                         JArr [JObj [("events", JArr [Example1.kill_event])]])])])).

Definition known_match_file : file :=
  File "timeline_M1.json" (Some (Example1.timeline [Example1.kill_event])).

(** The summary artifact, here with the content of a timeline. *)
Definition summary_file : file :=
  File "fetch_summary.json" (Some (Example1.timeline [Example1.kill_event])).

(** A file of another kind in the timelines directory. *)
Definition readme_file : file := File "README.md" None.

End Example2.

(** ** The float of an average: binary64

    [count / total_matches] divides two integers and [round(x, 2)] rounds
    the quotient; both work on IEEE-754 binary64.  They are modelled with
    the standard library's [spec_float] at precision 53 and [emax] 1024. *)

(** An integer as an exact, unnormalised float. *)
Definition of_int (z : Z) : spec_float :=
  match z with
  | Z0 => S754_zero false
  | Zpos p => S754_finite false p 0
  | Zneg p => S754_finite true p 0
  end.

(** [a / b] for integers: the binary64 nearest to the exact quotient;
    [None] is [ZeroDivisionError]. *)
Definition py_truediv (a b : Z) : option spec_float :=
  if b =? 0 then None else Some (SFdiv 53 1024 (of_int a) (of_int b)).

(** [n / d] rounded to an integer, a tie going to the even neighbour. *)
Definition half_even (n d : Z) : Z :=
  let q := n `div` d in
  let r := n `mod` d in
  match 2 * r ?= d with
  | Lt => q
  | Gt => q + 1
  | Eq => if Z.even q then q else q + 1
  end.

(** The number of hundredths [round(x, 2)] settles on: the exact binary
    value of [x], times 100, rounded half to even. *)
Definition hundredths (x : spec_float) : option Z :=
  match x with
  | S754_zero _ => Some 0
  | S754_finite s m e =>
      let h := match e with
               | Zneg k => half_even (Zpos m * 100) (2 ^ Zpos k)
               | _ => Zpos m * 2 ^ e * 100
               end in
      Some (if s then - h else h)
  | _ => None
  end.

(** The binary64 nearest to [h / 100]. *)
Definition decimal2 (h : Z) : spec_float :=
  SFdiv 53 1024 (of_int h) (of_int 100).

(** [round(x, 2)]: the decimal with two places nearest to [x], read back
    as a binary64; infinities and NaN are returned as they are. *)
Definition py_round2 (x : spec_float) : spec_float :=
  match hundredths x with
  | Some h => decimal2 h
  | None => x
  end.

(** The value of [round(count / total, 2)]. *)
Definition float_value (f : pyfloat) : option spec_float :=
  match f with
  | Round2Div count total => x ← py_truediv count total; Some (py_round2 x)
  end.

(** [e['average_per_game']], evaluated. *)
Definition average_of (e : pyval) : option spec_float :=
  match vget "average_per_game" e with
  | Some (VFloat f) => float_value f
  | _ => None
  end.

(** Rounding the exact ratio [count / total] to hundredths, a tie going
    up, and a tie going to the even neighbour. *)
Definition half_up_hundredths (count total : Z) : Z :=
  (200 * count + total) `div` (2 * total).

Definition exact_half_even_hundredths (count total : Z) : Z :=
  half_even (100 * count) total.

(** A value on which [// 60000] raises [TypeError]: neither an [int] nor a
    [bool]. *)
Definition not_a_number (v : json) : bool :=
  match v with
  | JNull | JStr _ | JArr _ | JObj _ => true
  | JBool _ | JInt _ => false
  end.

(** ** Corpora with many matches *)
Module Example3.

(** The id of match [i]: [NA1_0], [NA1_1], ... *)
Definition match_name (i : Z) : string :=
  "NA1_" +:+ NilZero.string_of_uint (N.to_uint (Z.to_N i)).

(** The timeline of match [i]: one kill by the target player in match 0,
    no event in the others. *)
Definition timeline (i : Z) : json :=
  JObj [("metadata", JObj [("matchId", JStr (match_name i))]);
        ("info",
         JObj [("frames",
                JArr [JObj [("events",
                            JArr (if i =? 0 then [Example1.kill_event] else []))]])])].

(** Every match has a match file, with the target player third. *)
Definition matches (match_id : json) : list file :=
  match match_id with
  | JStr s => [File ("match_" +:+ s +:+ ".json") (Some Example1.match_record)]
  | _ => []
  end.

(** [n] timeline files, of matches [0] to [n - 1]. *)
Definition corpus_of (n : Z) : corpus :=
  Corpus (map (λ i, File ("timeline_" +:+ match_name i +:+ ".json")
                         (Some (timeline i)))
              (seqZ 0 n))
         matches.

End Example3.

(** ** The listing of the timelines directory *)

(** Whether [s] ends with [suffix]. *)
Definition ends_with (suffix s : string) : bool :=
  (String.length suffix <=? String.length s)%nat
  && String.eqb
       (substring (String.length s - String.length suffix)
                  (String.length suffix) s)
       suffix.

(** What [glob("timeline_*.json")] lists of the entries of a directory:
    those whose name starts with [timeline_] and ends with [.json]. *)
Definition glob_timelines (entries : list file) : list file :=
  List.filter (λ f, String.prefix "timeline_" (name f) && ends_with ".json" (name f))
              entries.

(** * Properties *)

Example format_example :
  _format_timeline_data (bump 1 ∅) 1
  = [timeline_entry 0 0 0 1; timeline_entry 1 1 1 1].
Proof. vm_compute. reflexivity. Qed.

Example generate_example :
  (generate_heatmap_data (Example1.corpus_of [Example1.kill_event]) "me" "Player").1
  = response "me" "Player"
      (Stats 1 (PerCategory 0 1 0 0))
      (PerCategory [] [Example1.kill_point] [] [])
      (PerCategory [] [timeline_entry 0 0 0 1; timeline_entry 1 1 1 1] [] []).
Proof. vm_compute. reflexivity. Qed.

(** The calls of the same run: one resolution, one classification. *)
Example trace_example :
  (generate_heatmap_data (Example1.corpus_of [Example1.kill_event]) "me" "Player").2
  = [Resolve (JStr "M1") "me"; Classify Example1.kill_event 3].
Proof. vm_compute. reflexivity. Qed.

(** ** Minute buckets *)

Section Buckets.

Implicit Types (minutes : list Z) (m k : Z) (b : gmap Z Z).

Lemma record_minutes_snoc minutes m :
  record_minutes (minutes ++ [m]) = bump m (record_minutes minutes).
Proof. unfold record_minutes. by rewrite foldl_app. Qed.

Lemma raw_count_snoc minutes k m :
  raw_count (minutes ++ [k]) m
  = raw_count minutes m + (if decide (k = m) then 1 else 0).
Proof.
  unfold raw_count. rewrite filter_app, length_app, filter_cons, filter_nil.
  case_decide; simpl; lia.
Qed.

Lemma raw_count_nonneg minutes m : 0 ≤ raw_count minutes m.
Proof. unfold raw_count. lia. Qed.

Lemma raw_count_pos minutes m : m ∈ minutes → 0 < raw_count minutes m.
Proof.
  intros Hin. unfold raw_count.
  assert (Hf : m ∈ filter (λ k, k = m) minutes) by (by apply list_elem_of_filter).
  destruct (filter (λ k, k = m) minutes); [by apply elem_of_nil in Hf | simpl; lia].
Qed.

Lemma raw_count_zero minutes m : m ∉ minutes → raw_count minutes m = 0.
Proof.
  intros Hnin. unfold raw_count.
  destruct (filter (λ k, k = m) minutes) as [|x l] eqn:Hf; [done |].
  assert (Hx : x ∈ filter (λ k, k = m) minutes) by (rewrite Hf; left).
  apply list_elem_of_filter in Hx as [-> Hx]. contradiction.
Qed.

(** The sparse map holds exactly the minutes recorded, with their raw
    counts. *)
Lemma lookup_record_minutes minutes m :
  record_minutes minutes !! m
  = if decide (m ∈ minutes) then Some (raw_count minutes m) else None.
Proof.
  induction minutes as [|k minutes IH] using rev_ind.
  - unfold record_minutes. simpl. by rewrite lookup_empty.
  - rewrite record_minutes_snoc, raw_count_snoc. unfold bump.
    rewrite lookup_insert. destruct (decide (k = m)) as [->|Hne].
    + rewrite decide_True by set_solver. rewrite IH.
      case_decide as H; simpl; f_equal.
      rewrite (raw_count_zero _ _ H). lia.
    + rewrite IH. destruct (decide (m ∈ minutes)) as [Hin|Hnin].
      * rewrite decide_True by set_solver. f_equal. lia.
      * rewrite decide_False; [done |].
        rewrite elem_of_app, list_elem_of_singleton. intros [?|?]; congruence.
Qed.

Lemma count_record_minutes minutes m :
  default 0 (record_minutes minutes !! m) = raw_count minutes m.
Proof.
  rewrite lookup_record_minutes. case_decide as H; [done |].
  simpl. by rewrite raw_count_zero.
Qed.

Lemma record_minutes_empty minutes :
  record_minutes minutes = ∅ ↔ minutes = [].
Proof.
  split; [| by intros ->].
  destruct minutes as [|k minutes]; [done |]. intros He.
  pose proof (lookup_record_minutes (k :: minutes) k) as Hk.
  rewrite He, lookup_empty, decide_True in Hk by left. done.
Qed.

Lemma foldl_max_ge k ks : k ≤ foldl Z.max k ks.
Proof.
  revert k. induction ks as [|y ks IH]; intros k; simpl; [lia |].
  transitivity (Z.max k y); [lia | apply IH].
Qed.

Lemma foldl_max_upper k ks x : x ∈ k :: ks → x ≤ foldl Z.max k ks.
Proof.
  revert k. induction ks as [|y ks IH]; intros k Hin; simpl.
  - apply list_elem_of_singleton in Hin. lia.
  - apply elem_of_cons in Hin as [Hx|Hin].
    + transitivity (Z.max k y); [lia | apply foldl_max_ge].
    + apply elem_of_cons in Hin as [Hx|Hin].
      * transitivity (Z.max k y); [lia | apply foldl_max_ge].
      * apply IH. by right.
Qed.

Lemma foldl_max_elem k ks : foldl Z.max k ks ∈ k :: ks.
Proof.
  revert k. induction ks as [|y ks IH]; intros k; simpl; [left |].
  specialize (IH (Z.max k y)).
  apply elem_of_cons in IH as [Heq|Hin]; [| by do 2 right].
  rewrite Heq. destruct (Z.max_spec k y) as [[_ ->]|[_ ->]]; [right; left | left].
Qed.

Lemma elem_of_keys b k : k ∈ (map_to_list b).*1 ↔ is_Some (b !! k).
Proof.
  rewrite list_elem_of_fmap. split.
  - intros [[k' v] [-> Hin]]. apply elem_of_map_to_list in Hin. by exists v.
  - intros [v Hv]. exists (k, v). split; [done |]. by apply elem_of_map_to_list.
Qed.

Lemma elem_of_keys_record minutes k :
  k ∈ (map_to_list (record_minutes minutes)).*1 ↔ k ∈ minutes.
Proof.
  rewrite elem_of_keys, lookup_record_minutes.
  case_decide; split; intros H'; try done; by destruct H'.
Qed.

(** [max_keys] is the largest minute recorded. *)
Lemma max_keys_record minutes :
  minutes ≠ [] →
  max_keys (record_minutes minutes) ∈ minutes
  ∧ ∀ m, m ∈ minutes → m ≤ max_keys (record_minutes minutes).
Proof.
  intros Hne. unfold max_keys.
  destruct ((map_to_list (record_minutes minutes)).*1) as [|k ks] eqn:Hkeys.
  - destruct minutes as [|m minutes]; [done |].
    assert (Hm : m ∈ (map_to_list (record_minutes (m :: minutes))).*1)
      by (apply elem_of_keys_record; left).
    rewrite Hkeys in Hm. by apply elem_of_nil in Hm.
  - split.
    + apply elem_of_keys_record. rewrite Hkeys. apply foldl_max_elem.
    + intros m Hm. apply foldl_max_upper. rewrite <- Hkeys.
      by apply elem_of_keys_record.
Qed.

End Buckets.

(** ** Formatting a series *)

Section Format.

Implicit Types (minutes : list Z) (b : gmap Z Z) (m s c : Z).

Lemma range_sum_cons b s len :
  0 < len → range_sum b s len = default 0 (b !! s) + range_sum b (s + 1) (len - 1).
Proof.
  intros Hlen. unfold range_sum. rewrite (seqZ_cons s len) by done.
  simpl. by rewrite <- Z.add_1_r, <- Z.sub_1_r.
Qed.

(** The loop emits one entry per minute, with the running sum. *)
Lemma format_loop_seqZ b total s (n : nat) c :
  format_loop b total (seqZ s (Z.of_nat n)) c
  = (λ m, timeline_entry m (default 0 (b !! m))
                         (c + range_sum b s (m - s + 1)) total)
    <$> seqZ s (Z.of_nat n).
Proof.
  revert s c. induction n as [|n IH]; intros s c.
  - by rewrite seqZ_nil.
  - rewrite (seqZ_cons s (Z.of_nat (S n))) by lia.
    replace (Z.pred (Z.of_nat (S n))) with (Z.of_nat n) by lia.
    rewrite fmap_cons. simpl. f_equal.
    + replace (s - s + 1) with 1 by lia.
      rewrite range_sum_cons by lia. unfold range_sum.
      rewrite seqZ_nil by lia. simpl. by rewrite Z.add_0_r.
    + rewrite IH. apply list_fmap_ext. intros i m Hm.
      assert (Hin : m ∈ seqZ (Z.succ s) (Z.of_nat n))
        by (apply list_elem_of_lookup; eauto).
      apply elem_of_seqZ in Hin.
      rewrite (range_sum_cons b s (m - s + 1)) by lia.
      replace (m - Z.succ s + 1) with (m - s + 1 - 1) by lia.
      replace (Z.succ s) with (s + 1) by lia.
      by rewrite Z.add_assoc.
Qed.

Lemma range_sum_record minutes m :
  range_sum (record_minutes minutes) 0 (m + 1) = running_sum minutes m.
Proof.
  unfold range_sum, running_sum.
  induction (seqZ 0 (m + 1)) as [|i l IH]; [done |].
  simpl. by rewrite IH, count_record_minutes.
Qed.

(** The series of a non-empty recording, with counts and cumulative
    totals expressed by the minutes recorded. *)
Lemma format_record_minutes minutes total :
  minutes ≠ [] →
  _format_timeline_data (record_minutes minutes) total
  = (λ m, timeline_entry m (raw_count minutes m) (running_sum minutes m) total)
    <$> seqZ 0 (max_keys (record_minutes minutes) + 1).
Proof.
  intros Hne. unfold _format_timeline_data.
  rewrite decide_False by (by rewrite record_minutes_empty).
  set (M := max_keys (record_minutes minutes)).
  destruct (decide (0 ≤ M + 1)) as [Hle|Hlt].
  - rewrite <- (Z2Nat.id (M + 1)) by done.
    rewrite format_loop_seqZ. apply list_fmap_ext. intros i m _.
    rewrite count_record_minutes, Z.sub_0_r, range_sum_record. by rewrite Z.add_0_l.
  - by rewrite seqZ_nil by lia.
Qed.

Lemma average_of_entry (m n k total : Z) :
  average_of (timeline_entry m n k total) = float_value (Round2Div n total).
Proof. reflexivity. Qed.

Lemma entry_count_eq m n c total : entry_count (timeline_entry m n c total) = n.
Proof. reflexivity. Qed.

Lemma entry_cumulative_eq m n c total :
  entry_cumulative (timeline_entry m n c total) = c.
Proof. reflexivity. Qed.

Lemma entry_minute_eq m n c total : entry_minute (timeline_entry m n c total) = m.
Proof. reflexivity. Qed.

Lemma sum_counts_entries (f g : Z → Z) total (l : list Z) :
  sum_counts ((λ m, timeline_entry m (f m) (g m) total) <$> l)
  = foldr (λ i acc, f i + acc) 0 l.
Proof.
  induction l as [|i l IH]; [done |].
  rewrite fmap_cons. simpl. by rewrite <- IH.
Qed.

(** Over distinct minutes, the occurrences of [k] add up to one if [k] is
    among them and to zero if not. *)
Lemma indicator_sum k (l : list Z) :
  NoDup l →
  foldr (λ i acc, (if decide (k = i) then 1 else 0) + acc) 0 l
  = if decide (k ∈ l) then 1 else 0.
Proof.
  induction 1 as [|i l Hi Hnd IH]; [done |].
  simpl. rewrite IH. destruct (decide (k = i)) as [->|Hne].
  - rewrite decide_False by done. rewrite decide_True by left. done.
  - destruct (decide (k ∈ l)) as [Hin|Hnin].
    + rewrite decide_True by (by right). done.
    + rewrite decide_False; [done |].
      intros [?|?]%elem_of_cons; congruence.
Qed.

Lemma raw_count_cons k minutes i :
  raw_count (k :: minutes) i
  = (if decide (k = i) then 1 else 0) + raw_count minutes i.
Proof.
  unfold raw_count. rewrite filter_cons. case_decide; simpl; lia.
Qed.

(** The raw counts over distinct minutes [l] add up to the number of
    recorded minutes that are in [l]. *)
Lemma raw_count_sum minutes (l : list Z) :
  NoDup l →
  foldr (λ i acc, raw_count minutes i + acc) 0 l
  = Z.of_nat (length (filter (λ k, k ∈ l) minutes)).
Proof.
  intros Hnd. induction minutes as [|k minutes IH].
  - simpl. induction l as [|i l IHl]; [done |].
    simpl. rewrite IHl by (by apply NoDup_cons in Hnd as []). done.
  - transitivity
      (foldr (λ i acc, (if decide (k = i) then 1 else 0) + acc) 0 l
       + foldr (λ i acc, raw_count minutes i + acc) 0 l).
    + clear. induction l as [|i l IHl]; [done |].
      simpl. rewrite IHl, raw_count_cons. lia.
    + rewrite indicator_sum, IH by done. rewrite filter_cons.
      case_decide; simpl; lia.
Qed.

(** When every recorded minute is in the series' range, the running sum
    at the last minute is the number of recordings. *)
Lemma running_sum_all minutes M :
  (∀ m, m ∈ minutes → 0 ≤ m ≤ M) →
  running_sum minutes M = Z.of_nat (length minutes).
Proof.
  intros Hrange. unfold running_sum.
  rewrite raw_count_sum by apply NoDup_seqZ. do 2 f_equal.
  induction minutes as [|k minutes IH]; [done |].
  rewrite filter_cons, decide_True.
  - f_equal. apply IH. intros m Hm. apply Hrange. by right.
  - apply elem_of_seqZ. assert (0 ≤ k ≤ M) by (apply Hrange; left). lia.
Qed.

End Format.

(** ** The second loop keeps the accumulators consistent *)

Section Accumulators.

Implicit Types (a : accum) (cat : category) (p : Z).

Lemma cat_get_upd_eq {A} cat (f : A → A) (d : per_category A) :
  cat_get cat (cat_upd cat f d) = f (cat_get cat d).
Proof. by destruct cat. Qed.

Lemma cat_get_upd_ne {A} cat cat' (f : A → A) (d : per_category A) :
  cat ≠ cat' → cat_get cat' (cat_upd cat f d) = cat_get cat' d.
Proof. by destruct cat, cat'. Qed.

Lemma cat_get_map {A B} cat (f : A → B) (d : per_category A) :
  cat_get cat (cat_map f d) = f (cat_get cat d).
Proof. by destruct cat. Qed.

Lemma cat_get_all {A} cat (x : A) : cat_get cat (cat_all x) = x.
Proof. by destruct cat. Qed.

(** A point built from [timestamp] falls in the bucket of [timestamp]. *)
Lemma heatmap_point_minute pos timestamp match_id peer_key peer point minute :
  heatmap_point pos timestamp match_id peer_key peer = Some point →
  floordiv timestamp 60000 = Some minute →
  point_minute point = minute.
Proof.
  unfold heatmap_point, floordiv. intros Hpoint Hminute.
  destruct (subscript pos "x"); [| done].
  destruct (subscript pos "y"); [| done].
  destruct (as_int timestamp) as [z|] eqn:Hz; [| done].
  simpl in *. injection Hpoint as <-. injection Hminute as <-.
  unfold point_minute, point_timestamp. simpl. by rewrite Hz.
Qed.

Lemma consistent_initial pmap trace : consistent (initial_accum pmap trace).
Proof. intros cat. simpl. by rewrite !cat_get_all. Qed.

Lemma consistent_log k a : consistent a → consistent (log_call k a).
Proof. done. Qed.

Lemma consistent_record cat point minute a :
  point_minute point = minute →
  consistent a → consistent (record_event cat point minute a).
Proof.
  intros Hminute Ha cat'. destruct (Ha cat') as [Hb Hc]. simpl.
  destruct (decide (cat = cat')) as [<-|Hne].
  - rewrite !cat_get_upd_eq, fmap_app, length_app.
    change (point_minute <$> [point]) with [point_minute point].
    rewrite record_minutes_snoc, Hb, Hc, Hminute. simpl. split; [done | lia].
  - by rewrite !cat_get_upd_ne.
Qed.

(** What one event can do: nothing, or one recording in one category. *)
Lemma process_event_cases p match_id a event a' :
  process_event p match_id a event = Some a' →
  a' = a
  ∨ ∃ cat point minute,
      point_minute point = minute ∧ a' = record_event cat point minute a.
Proof.
  unfold process_event. intros H.
  destruct (py_get event "position" JNull) as [position|]; [| done].
  simpl in H. destruct (truthy position); simpl in H; [| left; congruence].
  destruct (subscript event "position") as [pos|]; [| done]. simpl in H.
  destruct (subscript event "timestamp") as [timestamp|]; [| done]. simpl in H.
  destruct (floordiv timestamp 60000) as [minute|] eqn:Hminute; [| done].
  simpl in H. destruct (subscript event "type") as [type|]; [| done].
  simpl in H.
  repeat match type of H with
  | (if ?b then _ else _) = Some _ => destruct b; simpl in H
  | (match ?o with Some _ => _ | None => _ end) = Some _ =>
      let Hp := fresh "Hpoint" in destruct o eqn:Hp; simpl in H; [| done]
  | (?o ≫= _) = Some _ =>
      let Hp := fresh "Hpoint" in destruct o eqn:Hp; simpl in H; [| done]
  | Some _ = Some _ => injection H as <-
  end;
  first [ by left
        | right; eexists _, _, _; split; [| reflexivity];
          eapply heatmap_point_minute; eassumption ].
Qed.

Lemma consistent_event p match_id a event a' :
  process_event p match_id a event = Some a' → consistent a → consistent a'.
Proof.
  intros [->|(cat & point & minute & Hm & ->)]%process_event_cases Ha;
    [done | by apply consistent_record].
Qed.

Lemma consistent_events p match_id events a :
  consistent a → consistent (process_events p match_id a events).1.
Proof.
  revert a. induction events as [|event events IH]; intros a Ha; [done |].
  simpl. destruct (process_event _ _ _ event) as [a'|] eqn:He.
  - apply IH. eapply consistent_event; [exact He | by apply consistent_log].
  - by apply consistent_log.
Qed.

Lemma consistent_frames p match_id frames a :
  consistent a → consistent (process_frames p match_id a frames).1.
Proof.
  revert a. induction frames as [|frame frames IH]; intros a Ha; [done |].
  simpl. destruct (py_get frame "events" (JArr []) ≫= py_iter) as [events|];
    [| done].
  destruct (process_events p match_id a events).2 eqn:Hr.
  - by apply consistent_events.
  - apply IH. by apply consistent_events.
Qed.

Lemma consistent_timeline pmap a f :
  consistent a → consistent (process_timeline pmap a f).
Proof.
  intros Ha. unfold process_timeline.
  repeat case_match; try done. by apply consistent_frames.
Qed.

Lemma total_matches_event p match_id a event a' :
  process_event p match_id a event = Some a' →
  total_matches (stats a') = total_matches (stats a).
Proof.
  by intros [->|(cat & point & minute & _ & ->)]%process_event_cases.
Qed.

Lemma total_matches_events p match_id events a :
  total_matches (stats (process_events p match_id a events).1)
  = total_matches (stats a).
Proof.
  revert a. induction events as [|event events IH]; intros a; [done |].
  simpl. destruct (process_event _ _ _ event) as [a'|] eqn:He; [| done].
  rewrite IH. by rewrite (total_matches_event _ _ _ _ _ He).
Qed.

Lemma total_matches_frames p match_id frames a :
  total_matches (stats (process_frames p match_id a frames).1)
  = total_matches (stats a).
Proof.
  revert a. induction frames as [|frame frames IH]; intros a; [done |].
  simpl. destruct (py_get frame "events" (JArr []) ≫= py_iter) as [events|];
    [| done].
  destruct (process_events p match_id a events).2 eqn:Hr.
  - apply total_matches_events.
  - rewrite IH. apply total_matches_events.
Qed.

Lemma total_matches_timeline pmap a f :
  total_matches (stats (process_timeline pmap a f)) = total_matches (stats a).
Proof.
  unfold process_timeline. repeat case_match; try done.
  apply total_matches_frames.
Qed.

(** The accumulators after both loops. *)
Lemma aggregate_consistent c target_puuid :
  consistent (aggregate c target_puuid).2
  ∧ total_matches (stats (aggregate c target_puuid).2)
    = Z.of_nat (size (aggregate c target_puuid).1).
Proof.
  unfold aggregate. simpl.
  set (pmap := (build_participant_map c target_puuid).1).
  set (trace := (build_participant_map c target_puuid).2).
  assert (H : consistent (initial_accum pmap trace)
              ∧ total_matches (stats (initial_accum pmap trace))
                = Z.of_nat (size pmap))
    by (split; [apply consistent_initial | done]).
  revert H. generalize (initial_accum pmap trace).
  induction (timeline_files c) as [|f files IH]; intros a [Ha Ht]; [done |].
  simpl. apply IH. split; [by apply consistent_timeline |].
  by rewrite total_matches_timeline.
Qed.

End Accumulators.

(** ** The response *)

Section Response.

Implicit Types (c : corpus) (cat : category) (r : pyval).

Lemma heatmap_of_response p n s h t cat :
  heatmap_of (response p n s h t) cat = Some (cat_get cat h).
Proof. by destruct cat. Qed.

Lemma timeline_of_response p n s h t cat :
  timeline_of (response p n s h t) cat = Some (cat_get cat t).
Proof. by destruct cat. Qed.

Lemma counter_of_response p n s h t cat :
  counter_of (response p n s h t) cat = Some (cat_get cat (counts s)).
Proof. by destruct cat. Qed.

Lemma total_matches_of_response p n s h t :
  total_matches_of (response p n s h t) = Some (total_matches s).
Proof. done. Qed.

Lemma divisor_floor (pmap : gmap pykey Z) :
  divisor pmap = Z.max 1 (Z.of_nat (size pmap)) ∧ 1 ≤ divisor pmap.
Proof. unfold divisor. destruct (Z.eqb_spec (Z.of_nat (size pmap)) 0); lia. Qed.

(** Every response is assembled from consistent accumulators. *)
Lemma generate_response c target_puuid player_name :
  ∃ pmap a,
    consistent a
    ∧ total_matches (stats a) = Z.of_nat (size pmap)
    ∧ (generate_heatmap_data c target_puuid player_name).1
      = response target_puuid player_name (stats a) (heatmap_data a)
          (cat_map (λ b, _format_timeline_data b (divisor pmap))
                   (timeline_stats a)).
Proof.
  unfold generate_heatmap_data. destruct (timeline_files c) as [|f files] eqn:Hf.
  - exists ∅, (initial_accum ∅ []).
    split; [apply consistent_initial |]. split; reflexivity.
  - exists (aggregate c target_puuid).1, (aggregate c target_puuid).2.
    destruct (aggregate_consistent c target_puuid) as [Ha Ht]. done.
Qed.

(** The three views of one category in a response. *)
Lemma response_category c target_puuid player_name cat :
  ∃ points total,
    let r := (generate_heatmap_data c target_puuid player_name).1 in
    heatmap_of r cat = Some points
    ∧ counter_of r cat = Some (Z.of_nat (length points))
    ∧ timeline_of r cat
      = Some (_format_timeline_data
                (record_minutes (point_minute <$> points)) total)
    ∧ 1 ≤ total.
Proof.
  destruct (generate_response c target_puuid player_name)
    as (pmap & a & Ha & _ & Hr).
  exists (cat_get cat (heatmap_data a)), (divisor pmap). simpl.
  rewrite Hr, heatmap_of_response, counter_of_response, timeline_of_response.
  destruct (Ha cat) as [Hb Hc]. rewrite cat_get_map, Hb, Hc.
  repeat split. apply divisor_floor.
Qed.

Lemma minutes_nonneg (points : list pyval) m :
  timestamps_nonneg points = true → m ∈ point_minute <$> points → 0 ≤ m.
Proof.
  intros Hall (p & -> & Hp)%list_elem_of_fmap.
  unfold timestamps_nonneg in Hall. rewrite forallb_forall in Hall.
  specialize (Hall p). rewrite <- list_elem_of_In in Hall.
  specialize (Hall Hp). unfold point_minute.
  apply Z.div_pos; lia.
Qed.

(** With no negative timestamp, the counts of the series add up to the
    number of points and so does the last cumulative total. *)
Lemma format_totals (points : list pyval) total :
  timestamps_nonneg points = true →
  let series :=
    _format_timeline_data (record_minutes (point_minute <$> points)) total in
  sum_counts series = Z.of_nat (length points)
  ∧ ∀ e, last series = Some e → entry_cumulative e = Z.of_nat (length points).
Proof.
  intros Hnonneg. simpl.
  destruct points as [|p0 points]; [by split |].
  set (minutes := point_minute <$> p0 :: points) in *.
  assert (Hne : minutes ≠ []) by done.
  rewrite format_record_minutes by done.
  destruct (max_keys_record minutes Hne) as [Hmax Hub].
  set (M := max_keys (record_minutes minutes)) in *.
  assert (HM : 0 ≤ M) by (by eapply minutes_nonneg).
  assert (Hall : running_sum minutes M = Z.of_nat (length (p0 :: points))).
  { rewrite running_sum_all.
    - unfold minutes. by rewrite length_fmap.
    - intros m Hm. split; [by eapply minutes_nonneg | by apply Hub]. }
  split.
  - by rewrite sum_counts_entries.
  - intros e. rewrite fmap_last.
    replace (M + 1) with (Z.of_nat (S (Z.to_nat M))) by lia.
    rewrite seqZ_S, last_snoc. simpl. intros [= <-].
    rewrite entry_cumulative_eq, Z2Nat.id, Z.add_0_l by done. done.
Qed.

End Response.

(** ** Classification of one event *)

Section Classification.

Implicit Types (a : accum) (p : Z) (d : list (string * json)).

Lemma assoc_dict_del {A} k (d : list (string * A)) : assoc k (dict_del k d) = None.
Proof.
  induction d as [|[k' v] d IH]; [done |].
  unfold dict_del. rewrite filter_cons. simpl.
  destruct (String.eqb k' k) eqn:Hk; simpl; [exact IH |].
  rewrite Hk. exact IH.
Qed.

(** The position test: an event whose [event.get('position')] is falsy
    is left at once. *)
Lemma process_event_falsy p match_id a d :
  truthy (default JNull (assoc "position" d)) = false →
  process_event p match_id a (JObj d) = Some a.
Proof. intros H. unfold process_event. simpl. by rewrite H. Qed.

End Classification.

(** C1: a champion-kill event with a position whose [victimId] equals the
    participant index [p] is classified as a death and contributes to no
    other category, also when [p] is the killer or is among the assisting
    participants of the same event: the death rule is evaluated first. *)
Theorem death_takes_precedence (p : Z) (match_id : json) (a : accum)
    (d : list (string * json)) (pos x y timestamp : json) (minute : Z) :
  assoc "position" d = Some pos →
  subscript pos "x" = Some x →
  subscript pos "y" = Some y →
  assoc "timestamp" d = Some timestamp →
  floordiv timestamp 60000 = Some minute →
  assoc "type" d = Some (JStr "CHAMPION_KILL") →
  py_eq_int (field (JObj d) "victimId") p = true →
  let point :=
    VDict [("x", VJson x); ("y", VJson y); ("timestamp", VJson timestamp);
           ("match_id", VJson match_id);
           ("killer_id", VJson (field (JObj d) "killerId"))] in
  ∃ a',
    process_event p match_id a (JObj d) = Some a'
    ∧ cat_get deaths (heatmap_data a') = cat_get deaths (heatmap_data a) ++ [point]
    ∧ cat_get deaths (counts (stats a')) = cat_get deaths (counts (stats a)) + 1
    ∧ cat_get deaths (timeline_stats a') = bump minute (cat_get deaths (timeline_stats a))
    ∧ ∀ cat, cat ≠ deaths →
        cat_get cat (heatmap_data a') = cat_get cat (heatmap_data a)
        ∧ cat_get cat (counts (stats a')) = cat_get cat (counts (stats a))
        ∧ cat_get cat (timeline_stats a') = cat_get cat (timeline_stats a).
Proof.
  intros Hpos Hx Hy Hts Hminute Htype Hvictim point.
  exists (record_event deaths point minute a). split; [| split; [| split; [| split]]].
  - unfold process_event. simpl. rewrite Hpos. simpl.
    assert (Htruthy : truthy pos = true).
    { destruct pos as [| | | | |fields]; try done. by destruct fields. }
    rewrite Htruthy, Hts. simpl. rewrite Hminute, Htype. simpl.
    rewrite Hvictim. simpl. unfold heatmap_point. rewrite Hx, Hy. done.
  - done.
  - done.
  - done.
  - intros cat Hcat. by destruct cat.
Qed.

Lemma death_takes_precedence_witness :
  ∃ a',
    process_event 3 (JStr "M1") Example1.some_accum (JObj Example1.contested_fields)
    = Some a'
    ∧ cat_get deaths (heatmap_data a')
      = [VDict [("x", VInt 10); ("y", VInt 20); ("timestamp", VInt 125000);
                ("match_id", VStr "M1"); ("killer_id", VInt 3)]]
    ∧ cat_get deaths (counts (stats a')) = 1
    ∧ cat_get deaths (timeline_stats a') = bump 2 ∅
    ∧ ∀ cat, cat ≠ deaths →
        cat_get cat (heatmap_data a') = cat_get cat (heatmap_data Example1.some_accum)
        ∧ cat_get cat (counts (stats a')) = cat_get cat (counts (stats Example1.some_accum))
        ∧ cat_get cat (timeline_stats a') = cat_get cat (timeline_stats Example1.some_accum).
Proof.
  apply (death_takes_precedence 3 (JStr "M1") Example1.some_accum
           Example1.contested_fields
           (JObj [("x", JInt 10); ("y", JInt 20)]) (JInt 10) (JInt 20)
           (JInt 125000) 2); reflexivity.
Defined.

(** C8: an event that has no [position] contributes nothing: the heatmap
    lists, the summary counters and the minute buckets are left as they
    were, whatever the event's type and participant ids are. *)
Theorem no_position_no_contribution (p : Z) (match_id : json) (a : accum)
    (d : list (string * json)) :
  assoc "position" d = None →
  ∃ a',
    process_event p match_id a (JObj d) = Some a'
    ∧ heatmap_data a' = heatmap_data a
    ∧ stats a' = stats a
    ∧ timeline_stats a' = timeline_stats a.
Proof.
  intros Hpos. exists a. split; [| done].
  apply process_event_falsy. by rewrite Hpos.
Qed.

Lemma no_position_no_contribution_witness :
  ∃ a',
    process_event 3 (JStr "M1") Example1.some_accum (JObj Example1.unplaced_fields)
    = Some a'
    ∧ heatmap_data a' = heatmap_data Example1.some_accum
    ∧ stats a' = stats Example1.some_accum
    ∧ timeline_stats a' = timeline_stats Example1.some_accum.
Proof.
  apply (no_position_no_contribution 3 (JStr "M1") Example1.some_accum
           Example1.unplaced_fields).
  reflexivity.
Defined.

(** C10: an event whose [position] is present but falsy (an empty object,
    [null], [0], an empty string or list, [false]) is excluded exactly like
    the same event without the key: the test is on the truth value of
    [event.get('position')]. *)
Theorem falsy_position_as_absent (p : Z) (match_id : json) (a : accum)
    (d : list (string * json)) (position : json) :
  assoc "position" d = Some position →
  truthy position = false →
  process_event p match_id a (JObj d)
  = process_event p match_id a (JObj (dict_del "position" d))
  ∧ ∃ a',
      process_event p match_id a (JObj d) = Some a'
      ∧ heatmap_data a' = heatmap_data a
      ∧ stats a' = stats a
      ∧ timeline_stats a' = timeline_stats a.
Proof.
  intros Hpos Hfalsy.
  assert (H : process_event p match_id a (JObj d) = Some a)
    by (apply process_event_falsy; by rewrite Hpos).
  split.
  - rewrite H. symmetry. apply process_event_falsy. by rewrite assoc_dict_del.
  - by exists a.
Qed.

Lemma falsy_position_as_absent_witness :
  process_event 3 (JStr "M1") Example1.some_accum (JObj Example1.empty_position_fields)
  = process_event 3 (JStr "M1") Example1.some_accum
      (JObj (dict_del "position" Example1.empty_position_fields))
  ∧ ∃ a',
      process_event 3 (JStr "M1") Example1.some_accum
        (JObj Example1.empty_position_fields) = Some a'
      ∧ heatmap_data a' = heatmap_data Example1.some_accum
      ∧ stats a' = stats Example1.some_accum
      ∧ timeline_stats a' = timeline_stats Example1.some_accum.
Proof.
  apply (falsy_position_as_absent 3 (JStr "M1") Example1.some_accum
           Example1.empty_position_fields (JObj [])); reflexivity.
Defined.

(** C9: with no timeline file at all the result is the empty response:
    [total_matches] and the four counters are 0, the four heatmap lists and
    the four series are present and empty, and no resolution and no
    classification takes place. *)
Theorem empty_corpus_short_circuit (c : corpus) (target_puuid player_name : string) :
  timeline_files c = [] →
  generate_heatmap_data c target_puuid player_name
  = (_empty_response target_puuid player_name, [])
  ∧ total_matches_of (_empty_response target_puuid player_name) = Some 0
  ∧ ∀ cat,
      counter_of (_empty_response target_puuid player_name) cat = Some 0
      ∧ heatmap_of (_empty_response target_puuid player_name) cat = Some []
      ∧ timeline_of (_empty_response target_puuid player_name) cat = Some [].
Proof.
  intros Hfiles. unfold generate_heatmap_data. rewrite Hfiles.
  split; [done |]. split; [done |]. by intros [].
Qed.

Lemma empty_corpus_short_circuit_witness :
  generate_heatmap_data (Corpus [] Example1.matches) "me" "Player"
  = (_empty_response "me" "Player", [])
  ∧ total_matches_of (_empty_response "me" "Player") = Some 0
  ∧ ∀ cat,
      counter_of (_empty_response "me" "Player") cat = Some 0
      ∧ heatmap_of (_empty_response "me" "Player") cat = Some []
      ∧ timeline_of (_empty_response "me" "Player") cat = Some [].
Proof.
  apply (empty_corpus_short_circuit (Corpus [] Example1.matches) "me" "Player").
  reflexivity.
Defined.

(** ** Names of the fields *)

Lemma format_loop_entries (b : gmap Z Z) (total : Z) (minutes : list Z) (c : Z) (e : pyval) :
  e ∈ format_loop b total minutes c →
  ∃ m n k, e = timeline_entry m n k total ∧ n = default 0 (b !! m).
Proof.
  revert c. induction minutes as [|m minutes IH]; intros c He; simpl in He.
  - by apply elem_of_nil in He.
  - apply elem_of_cons in He as [->|He]; [by eexists _, _, _ | by eapply IH].
Qed.

Lemma format_entries (b : gmap Z Z) (total : Z) (e : pyval) :
  e ∈ _format_timeline_data b total →
  ∃ m n k, e = timeline_entry m n k total ∧ n = default 0 (b !! m).
Proof.
  unfold _format_timeline_data. case_decide.
  - by intros ?%elem_of_nil.
  - apply format_loop_entries.
Qed.

(** C3, as the code has it: the response has exactly the fields
    [player_puuid], [player_name], [stats] (with [total_matches] and the
    four [..._count] fields), [heatmap_data] and [timeline_data], and every
    series entry has exactly the fields [minute], [count], [cumulative] and
    [average_per_game]. *)
Theorem response_field_names (c : corpus) (target_puuid player_name : string) :
  shape_named "player_puuid" "stats" "heatmap_data" "timeline_data"
    "average_per_game"
    (generate_heatmap_data c target_puuid player_name).1.
Proof.
  destruct (generate_response c target_puuid player_name)
    as (pmap & a & _ & _ & ->).
  unfold shape_named, named_exactly.
  split; [reflexivity |]. split; [eexists; split; reflexivity |].
  eexists. split; [reflexivity |].
  intros cat series e Hseries He.
  assert (Hs : series
               = _format_timeline_data (cat_get cat (timeline_stats a))
                   (divisor pmap)).
  { destruct cat; simpl in Hseries; by injection Hseries as <-. }
  subst series. apply format_entries in He as (m & n & k & -> & _).
  reflexivity.
Qed.

(** C3 as stated fails: the response of the worked example has no field
    [player_id], [summary], [heatmap] or [timeline]. *)
Lemma spec_field_names_counterexample :
  ¬ shape_named "player_id" "summary" "heatmap" "timeline" "average_per_match"
      (generate_heatmap_data
         (Example1.corpus_of [Example1.kill_event]) "me" "Player").1.
Proof.
  intros [Hnames _]. unfold named_exactly in Hnames.
  assert (Hin : "player_id" ∈ dict_keys
            (generate_heatmap_data
               (Example1.corpus_of [Example1.kill_event]) "me" "Player").1)
    by (rewrite Hnames; left).
  vm_compute in Hin.
  repeat (apply elem_of_cons in Hin as [Hin|Hin]; [discriminate Hin |]).
  by apply elem_of_nil in Hin.
Qed.

(** ** Series and heatmap agree *)

(** C5: under the data model's invariant that timestamps are not negative
    (here: no point of the category has a negative timestamp), the
    per-minute counts of the category's series add up to the number of its
    heatmap points. *)
Theorem series_counts_match_heatmap (c : corpus) (target_puuid player_name : string)
    (cat : category) (points series : list pyval) :
  heatmap_of (generate_heatmap_data c target_puuid player_name).1 cat = Some points →
  timeline_of (generate_heatmap_data c target_puuid player_name).1 cat = Some series →
  timestamps_nonneg points = true →
  sum_counts series = Z.of_nat (length points).
Proof.
  destruct (response_category c target_puuid player_name cat)
    as (points' & total & Hh & _ & Ht & _). simpl in *.
  rewrite Hh, Ht. intros [= <-] [= <-] Hnonneg.
  by apply format_totals.
Qed.

Lemma series_counts_match_heatmap_witness :
  sum_counts [timeline_entry 0 0 0 1; timeline_entry 1 1 1 1]
  = Z.of_nat (length [Example1.kill_point]).
Proof.
  apply (series_counts_match_heatmap
           (Example1.corpus_of [Example1.kill_event]) "me" "Player" kills);
    vm_compute; reflexivity.
Defined.

(** Outside the invariant: a kill stamped at -1 ms is a heatmap point, but
    its minute, -1, is outside every series. *)
Example negative_timestamp_not_counted :
  let r := (generate_heatmap_data
              (Example1.corpus_of [Example1.early_event]) "me" "Player").1 in
  ∃ points series,
    heatmap_of r kills = Some points
    ∧ timeline_of r kills = Some series
    ∧ sum_counts series ≠ Z.of_nat (length points).
Proof.
  eexists _, _. split; [vm_compute; reflexivity |].
  split; [vm_compute; reflexivity |]. vm_compute. discriminate.
Qed.

(** C6: under the data model's invariant that timestamps are not negative
    (here: no point of the category has a negative timestamp), the
    cumulative total of the last entry of a series that is not empty is the
    category's summary counter. *)
Theorem last_cumulative_is_counter (c : corpus) (target_puuid player_name : string)
    (cat : category) (points series : list pyval) (e : pyval) :
  heatmap_of (generate_heatmap_data c target_puuid player_name).1 cat = Some points →
  timeline_of (generate_heatmap_data c target_puuid player_name).1 cat = Some series →
  timestamps_nonneg points = true →
  last series = Some e →
  counter_of (generate_heatmap_data c target_puuid player_name).1 cat
  = Some (entry_cumulative e).
Proof.
  destruct (response_category c target_puuid player_name cat)
    as (points' & total & Hh & Hc & Ht & _). simpl in *.
  rewrite Hh, Ht, Hc. intros [= <-] [= <-] Hnonneg Hlast.
  f_equal. symmetry. by eapply format_totals.
Qed.

Lemma last_cumulative_is_counter_witness :
  counter_of
    (generate_heatmap_data (Example1.corpus_of [Example1.kill_event]) "me" "Player").1
    kills
  = Some (entry_cumulative (timeline_entry 1 1 1 1)).
Proof.
  apply (last_cumulative_is_counter
           (Example1.corpus_of [Example1.kill_event]) "me" "Player" kills
           [Example1.kill_point]
           [timeline_entry 0 0 0 1; timeline_entry 1 1 1 1]);
    vm_compute; reflexivity.
Defined.

(** Outside the invariant: with one kill at -1 ms and one at 65000 ms the
    series ends with cumulative total 1 and the counter is 2. *)
Example negative_timestamp_not_cumulated :
  let r := (generate_heatmap_data
              (Example1.corpus_of [Example1.early_event; Example1.kill_event])
              "me" "Player").1 in
  ∃ series e,
    timeline_of r kills = Some series
    ∧ last series = Some e
    ∧ counter_of r kills ≠ Some (entry_cumulative e).
Proof.
  eexists _, _. split; [vm_compute; reflexivity |].
  split; [vm_compute; reflexivity |]. vm_compute. discriminate.
Qed.

(** ** Averages *)

Lemma generate_nonempty (c : corpus) (target_puuid player_name : string) :
  timeline_files c ≠ [] →
  generate_heatmap_data c target_puuid player_name
  = (response target_puuid player_name
       (stats (aggregate c target_puuid).2)
       (heatmap_data (aggregate c target_puuid).2)
       (cat_map (λ b, _format_timeline_data b (divisor (aggregate c target_puuid).1))
                (timeline_stats (aggregate c target_puuid).2)),
     calls (aggregate c target_puuid).2).
Proof.
  intros Hne. unfold generate_heatmap_data.
  by destruct (timeline_files c).
Qed.

Lemma total_matches_of_generate (c : corpus) (target_puuid player_name : string) :
  total_matches_of (generate_heatmap_data c target_puuid player_name).1
  = Some (Z.of_nat (size (build_participant_map c target_puuid).1)).
Proof.
  destruct (timeline_files c) as [|f files] eqn:Hfiles.
  - unfold generate_heatmap_data, build_participant_map. by rewrite Hfiles.
  - rewrite generate_nonempty by (by rewrite Hfiles).
    simpl fst. rewrite total_matches_of_response.
    destruct (aggregate_consistent c target_puuid) as [_ Htotal].
    unfold aggregate in Htotal. simpl in Htotal. by rewrite Htotal.
Qed.

(** With eight resolved matches and one kill in minute 1, the average of
    that minute is 0.12, where rounding the exact ratio 1/8 with a tie going
    up gives 0.13.  With forty matches it is 0.03, where rounding the exact
    ratio 1/40 with a tie going to the even neighbour gives 0.02. *)
Lemma standard_rounding_counterexample :
  (∃ series e,
     let r := (generate_heatmap_data (Example3.corpus_of 8) "me" "Player").1 in
     timeline_of r kills = Some series
     ∧ series !! 1%nat = Some e
     ∧ total_matches_of r = Some 8
     ∧ entry_count e = 1
     ∧ average_of e = Some (decimal2 12)
     ∧ average_of e ≠ Some (decimal2 (half_up_hundredths (entry_count e) 8)))
  ∧ (∃ series e,
       let r := (generate_heatmap_data (Example3.corpus_of 40) "me" "Player").1 in
       timeline_of r kills = Some series
       ∧ series !! 1%nat = Some e
       ∧ total_matches_of r = Some 40
       ∧ entry_count e = 1
       ∧ average_of e = Some (decimal2 3)
       ∧ average_of e
         ≠ Some (decimal2 (exact_half_even_hundredths (entry_count e) 40))).
Proof.
  split.
  - exists [timeline_entry 0 0 0 8; timeline_entry 1 1 1 8], (timeline_entry 1 1 1 8).
    repeat split; try (vm_compute; reflexivity). vm_compute. discriminate.
  - exists [timeline_entry 0 0 0 40; timeline_entry 1 1 1 40],
           (timeline_entry 1 1 1 40).
    repeat split; try (vm_compute; reflexivity). vm_compute. discriminate.
Qed.

(** C7, as the code has it: the average of every series entry is Python's
    [round(count / total_matches, 2)]: the binary64 quotient of the entry's
    count by the number of resolved matches, with a floor of 1, rounded to
    the nearest hundredth of its exact value, a tie going to the even
    neighbour. *)
Theorem average_is_python_round (c : corpus) (target_puuid player_name : string)
    (cat : category) (series : list pyval) (e : pyval) :
  timeline_of (generate_heatmap_data c target_puuid player_name).1 cat = Some series →
  e ∈ series →
  ∃ resolved quotient,
    resolved = Z.of_nat (size (build_participant_map c target_puuid).1)
    ∧ total_matches_of (generate_heatmap_data c target_puuid player_name).1
      = Some resolved
    ∧ 1 ≤ Z.max 1 resolved
    ∧ py_truediv (entry_count e) (Z.max 1 resolved) = Some quotient
    ∧ average_of e = Some (py_round2 quotient).
Proof.
  intros Hseries He.
  pose proof (total_matches_of_generate c target_puuid player_name) as Hresolved.
  destruct (generate_response c target_puuid player_name)
    as (pmap & a & _ & Htotal & Hr).
  rewrite Hr, timeline_of_response, cat_get_map in Hseries.
  injection Hseries as <-.
  apply format_entries in He as (m & n & k & -> & _).
  assert (Hsize : Z.of_nat (size pmap)
                  = Z.of_nat (size (build_participant_map c target_puuid).1)).
  { rewrite Hr, total_matches_of_response, Htotal in Hresolved.
    by injection Hresolved. }
  destruct (divisor_floor pmap) as [Hd Hd1].
  exists (Z.of_nat (size (build_participant_map c target_puuid).1)),
         (SFdiv 53 1024 (of_int n) (of_int (divisor pmap))).
  split; [reflexivity |]. split; [exact Hresolved |]. split; [lia |].
  rewrite entry_count_eq, average_of_entry, <- Hsize, <- Hd.
  unfold float_value, py_truediv.
  destruct (Z.eqb_spec (divisor pmap) 0); [lia |]. split; reflexivity.
Qed.

Lemma average_is_python_round_witness :
  ∃ resolved quotient,
    resolved
    = Z.of_nat (size (build_participant_map (Example3.corpus_of 8) "me").1)
    ∧ total_matches_of
        (generate_heatmap_data (Example3.corpus_of 8) "me" "Player").1
      = Some resolved
    ∧ 1 ≤ Z.max 1 resolved
    ∧ py_truediv (entry_count (timeline_entry 1 1 1 8)) (Z.max 1 resolved)
      = Some quotient
    ∧ average_of (timeline_entry 1 1 1 8) = Some (py_round2 quotient).
Proof.
  apply (average_is_python_round (Example3.corpus_of 8) "me" "Player" kills
           [timeline_entry 0 0 0 8; timeline_entry 1 1 1 8]
           (timeline_entry 1 1 1 8)).
  - vm_compute. reflexivity.
  - right. left.
Defined.

(** X25: the operands of every average: the entry's own count, and the
    number of resolved matches with a floor of 1. *)
Lemma average_operands (c : corpus) (target_puuid player_name : string)
    (cat : category) (series : list pyval) (e : pyval) :
  timeline_of (generate_heatmap_data c target_puuid player_name).1 cat = Some series →
  e ∈ series →
  ∃ resolved,
    total_matches_of (generate_heatmap_data c target_puuid player_name).1
    = Some resolved
    ∧ 1 ≤ Z.max 1 resolved
    ∧ vget "average_per_game" e
      = Some (VFloat (Round2Div (entry_count e) (Z.max 1 resolved))).
Proof.
  destruct (generate_response c target_puuid player_name)
    as (pmap & a & _ & Htotal & ->).
  rewrite timeline_of_response, cat_get_map, total_matches_of_response.
  intros [= <-] (m & n & k & -> & _)%format_entries.
  exists (total_matches (stats a)). split; [done |]. split; [lia |].
  rewrite Htotal. destruct (divisor_floor pmap) as [-> _]. done.
Qed.

(** ** Records that cannot be read *)

Section Skipping.

Variable matches : json → list file.
Variable target_puuid : string.

Implicit Types (f : file) (files : list file).

(** The first loop reads the corpus only through [match_files]. *)
Lemma resolve_step_corpus files files' st f :
  resolve_step (Corpus files matches) target_puuid st f
  = resolve_step (Corpus files' matches) target_puuid st f.
Proof. done. Qed.

Lemma resolve_step_unreadable c st f :
  unreadable f = true → resolve_step c target_puuid st f = st.
Proof.
  unfold unreadable, resolve_step. intros Hf.
  destruct (load f ≫= match_id_of); [done |].
  by destruct (String.eqb (name f) "fetch_summary.json").
Qed.

Lemma process_timeline_unreadable pmap a f :
  unreadable f = true → process_timeline pmap a f = a.
Proof.
  unfold unreadable, process_timeline. intros Hf.
  destruct (String.eqb (name f) "fetch_summary.json"); [done |].
  destruct (load f) as [timeline_data|]; [| done]. simpl in Hf.
  by destruct (match_id_of timeline_data).
Qed.

Lemma build_participant_map_skip files1 f files2 :
  unreadable f = true →
  build_participant_map (Corpus (files1 ++ f :: files2) matches) target_puuid
  = build_participant_map (Corpus (files1 ++ files2) matches) target_puuid.
Proof.
  intros Hf. unfold build_participant_map. simpl timeline_files.
  change (resolve_step (Corpus (files1 ++ f :: files2) matches) target_puuid)
    with (resolve_step (Corpus (files1 ++ files2) matches) target_puuid).
  rewrite !foldl_app. simpl. by rewrite resolve_step_unreadable.
Qed.

Lemma aggregate_skip files1 f files2 :
  unreadable f = true →
  aggregate (Corpus (files1 ++ f :: files2) matches) target_puuid
  = aggregate (Corpus (files1 ++ files2) matches) target_puuid.
Proof.
  intros Hf. unfold aggregate. rewrite build_participant_map_skip by done.
  simpl. f_equal. rewrite !foldl_app. simpl.
  by rewrite process_timeline_unreadable.
Qed.

End Skipping.

(** C2, for a record that cannot be read: when [open], [json.load] or
    [timeline_data['metadata']['matchId']] fails for a timeline record, no
    event of the record contributes to any output; the response (heatmap
    lists, summary counters, series) and the calls made are those of the
    corpus without the record, and the failure does not reach the caller. *)
Theorem unreadable_record_skipped (files1 : list file) (f : file)
    (files2 : list file) (matches : json → list file)
    (target_puuid player_name : string) :
  unreadable f = true →
  generate_heatmap_data (Corpus (files1 ++ f :: files2) matches)
    target_puuid player_name
  = generate_heatmap_data (Corpus (files1 ++ files2) matches)
      target_puuid player_name.
Proof.
  intros Hf. unfold generate_heatmap_data. simpl timeline_files.
  destruct files1 as [|x files1]; [destruct files2 as [|y files2] |].
  - pose proof (aggregate_skip matches target_puuid [] f [] Hf) as Hagg.
    simpl app in *. cbv match. rewrite Hagg. reflexivity.
  - pose proof (aggregate_skip matches target_puuid [] f (y :: files2) Hf) as Hagg.
    simpl app in *. cbv match. by rewrite Hagg.
  - pose proof (aggregate_skip matches target_puuid (x :: files1) f files2 Hf)
      as Hagg.
    simpl app in *. cbv match. by rewrite Hagg.
Qed.

Lemma unreadable_record_skipped_witness :
  generate_heatmap_data
    (Corpus ([File "timeline_M1.json"
                (Some (Example1.timeline [Example1.kill_event]))]
             ++ Example1.corrupt_file :: [])
       Example1.matches) "me" "Player"
  = generate_heatmap_data
      (Corpus ([File "timeline_M1.json"
                  (Some (Example1.timeline [Example1.kill_event]))] ++ [])
         Example1.matches) "me" "Player".
Proof.
  apply (unreadable_record_skipped
           [File "timeline_M1.json" (Some (Example1.timeline [Example1.kill_event]))]
           Example1.corrupt_file [] Example1.matches "me" "Player").
  reflexivity.
Defined.

(** C2 as stated fails: in a record whose second event has no timestamp,
    the second loop raises at that event, after the first event was
    recorded as a death; the record also stays counted in
    [total_matches].  Without the record the corpus is empty. *)
Lemma partial_record_counterexample :
  let bad :=
    File "timeline_M1.json"
      (Some (Example1.timeline [Example1.death_event; Example1.broken_event])) in
  let c := Corpus [bad] Example1.matches in
  let st := build_participant_map c "me" in
  second_pass_raises st.1 (initial_accum st.1 st.2) bad = true
  ∧ counter_of (generate_heatmap_data c "me" "Player").1 deaths = Some 1
  ∧ total_matches_of (generate_heatmap_data c "me" "Player").1 = Some 1
  ∧ (generate_heatmap_data c "me" "Player").1
    ≠ (generate_heatmap_data (Corpus [] Example1.matches) "me" "Player").1.
Proof.
  repeat split; try (vm_compute; reflexivity).
  intros H. vm_compute in H. discriminate H.
Qed.

(** ** Dense series *)

(** C4: for the buckets of any sequence of recordings, the formatted series
    is empty when nothing was recorded; otherwise (the divisor not being 0)
    it has exactly one entry for every minute from 0 to [max_minute], the
    largest minute whose raw count is not zero, in order: the entry at
    position [i] has minute [i], as count the number of recordings at
    minute [i], which is 0 for a minute without events, as [cumulative] the
    sum of the raw counts of minutes 0 to [i], and an average that is
    defined. *)
Theorem format_timeline_dense (minutes : list Z) (total : Z) :
  (minutes = [] → _format_timeline_data (record_minutes minutes) total = [])
  ∧ (minutes ≠ [] →
     total ≠ 0 →
     ∃ max_minute,
       raw_count minutes max_minute ≠ 0
       ∧ (∀ m, raw_count minutes m ≠ 0 → m ≤ max_minute)
       ∧ length (_format_timeline_data (record_minutes minutes) total)
         = Z.to_nat (max_minute + 1)
       ∧ ∀ (i : nat) (e : pyval),
           _format_timeline_data (record_minutes minutes) total !! i = Some e →
           vget "minute" e = Some (VInt (Z.of_nat i))
           ∧ vget "count" e = Some (VInt (raw_count minutes (Z.of_nat i)))
           ∧ (Z.of_nat i ∉ minutes → vget "count" e = Some (VInt 0))
           ∧ vget "cumulative" e = Some (VInt (running_sum minutes (Z.of_nat i)))
           ∧ is_Some (average_of e)).
Proof.
  split; [by intros -> |]. intros Hne Htotal.
  destruct (max_keys_record minutes Hne) as [Hmax Hub].
  exists (max_keys (record_minutes minutes)).
  rewrite format_record_minutes by done.
  split; [apply raw_count_pos in Hmax; lia |].
  split.
  { intros m Hm. apply Hub. destruct (decide (m ∈ minutes)) as [|Hnin]; [done |].
    by apply raw_count_zero in Hnin. }
  split; [by rewrite length_fmap, length_seqZ |].
  intros i e He. rewrite list_lookup_fmap in He.
  destruct (seqZ 0 (max_keys (record_minutes minutes) + 1) !! i) as [m|] eqn:Hm;
    [| done].
  simpl in He. injection He as <-.
  apply lookup_seqZ in Hm as [-> _]. rewrite Z.add_0_l.
  split; [reflexivity |]. split; [reflexivity |].
  split; [intros Hnin; by rewrite (raw_count_zero _ _ Hnin) |].
  split; [reflexivity |].
  rewrite average_of_entry. unfold float_value, py_truediv.
  destruct (Z.eqb_spec total 0) as [|_]; [done |]. by eexists.
Qed.

Lemma format_timeline_dense_witness :
  ∃ max_minute,
    raw_count [1; 3; 1] max_minute ≠ 0
    ∧ (∀ m, raw_count [1; 3; 1] m ≠ 0 → m ≤ max_minute)
    ∧ length (_format_timeline_data (record_minutes [1; 3; 1]) 2)
      = Z.to_nat (max_minute + 1)
    ∧ ∀ (i : nat) (e : pyval),
        _format_timeline_data (record_minutes [1; 3; 1]) 2 !! i = Some e →
        vget "minute" e = Some (VInt (Z.of_nat i))
        ∧ vget "count" e = Some (VInt (raw_count [1; 3; 1] (Z.of_nat i)))
        ∧ (Z.of_nat i ∉ [1; 3; 1] → vget "count" e = Some (VInt 0))
        ∧ vget "cumulative" e = Some (VInt (running_sum [1; 3; 1] (Z.of_nat i)))
        ∧ is_Some (average_of e).
Proof.
  apply (format_timeline_dense [1; 3; 1] 2); discriminate.
Defined.

Example format_dense_example :
  _format_timeline_data (record_minutes [1; 3; 1]) 2
  = [timeline_entry 0 0 0 2; timeline_entry 1 2 2 2;
     timeline_entry 2 0 2 2; timeline_entry 3 1 3 2].
Proof. vm_compute. reflexivity. Qed.

(** Negative minutes are recorded but never formatted. *)
Example format_negative_example :
  _format_timeline_data (record_minutes [-1]) 1 = [].
Proof. vm_compute. reflexivity. Qed.

(** * Further properties of the code *)

(** ** The resolver *)

Section Resolver.

Implicit Types (c : corpus) (entries : list json) (t : string) (i idx : Z).

Lemma py_eq_str_true (v : json) t : py_eq_str v t = true ↔ v = JStr t.
Proof.
  destruct v; simpl; try (split; [discriminate | by intros [=]]).
  rewrite String.eqb_eq. split; [by intros -> | by intros [= ->]].
Qed.

Lemma py_eq_str_false (v : json) t : py_eq_str v t = false ↔ v ≠ JStr t.
Proof.
  rewrite <- py_eq_str_true. destruct (py_eq_str v t); split; done.
Qed.

(** The loop returns the number of the first entry equal to the target,
    counting from [i]. *)
Lemma find_puuid_Some entries t i idx :
  find_puuid entries t i = Some idx
  ↔ i ≤ idx
    ∧ entries !! Z.to_nat (idx - i) = Some (JStr t)
    ∧ ∀ j, (j < Z.to_nat (idx - i))%nat → entries !! j ≠ Some (JStr t).
Proof.
  revert i. induction entries as [|e entries IH]; intros i; simpl.
  - split; [done |]. by intros (_ & H & _).
  - destruct (py_eq_str e t) eqn:He.
    + apply py_eq_str_true in He as ->. split.
      * intros [= <-]. rewrite Z.sub_diag. simpl. repeat split; [lia | lia].
      * intros (Hle & _ & Hfirst). f_equal.
        destruct (decide (idx = i)) as [|Hne]; [done |].
        destruct (Hfirst 0%nat); [lia | done].
    + apply py_eq_str_false in He. rewrite IH. split.
      * intros (Hle & Hat & Hfirst).
        replace (Z.to_nat (idx - i)) with (S (Z.to_nat (idx - (i + 1)))) by lia.
        split; [lia |]. split; [done |].
        intros [|j] Hj; simpl; [congruence | apply Hfirst; lia].
      * intros (Hle & Hat & Hfirst).
        assert (Hlt : i < idx).
        { destruct (decide (idx = i)) as [->|]; [| lia].
          rewrite Z.sub_diag in Hat. simpl in Hat. congruence. }
        replace (Z.to_nat (idx - i)) with (S (Z.to_nat (idx - (i + 1)))) in * by lia.
        split; [lia |]. split; [done |].
        intros j Hj. apply (Hfirst (S j)). lia.
  Qed.

Lemma find_puuid_None entries t i :
  find_puuid entries t i = None ↔ JStr t ∉ entries.
Proof.
  revert i. induction entries as [|e entries IH]; intros i; simpl.
  - split; [intros _; apply not_elem_of_nil | done].
  - rewrite not_elem_of_cons. destruct (py_eq_str e t) eqn:He.
    + apply py_eq_str_true in He as ->. split; [done | by intros []].
    + apply py_eq_str_false in He. rewrite IH. split; [by split | by intros []].
Qed.

Lemma resolver_roster c match_id t :
  _get_participant_id_for_puuid c match_id t
  = entries ← roster c match_id; find_puuid entries t 1.
Proof.
  unfold _get_participant_id_for_puuid, roster.
  destruct (match_files c match_id) as [|match_file rest]; [done |].
  destruct (load match_file) as [match_data|]; [| done]. simpl.
  destruct (subscript match_data "metadata") as [metadata|]; [| done]. simpl.
  destruct (subscript metadata "participants") as [participants|]; [| done].
  simpl. by destruct (py_iter participants).
Qed.

End Resolver.

(** X1: the resolver returns [idx] exactly when the roster of the first
    match file can be read and [idx] is the 1-based position of the first
    roster entry equal to the target. *)
Theorem resolver_first_index (c : corpus) (match_id : json) (target_puuid : string)
    (idx : Z) :
  _get_participant_id_for_puuid c match_id target_puuid = Some idx
  ↔ ∃ entries,
      roster c match_id = Some entries
      ∧ 1 ≤ idx
      ∧ entries !! Z.to_nat (idx - 1) = Some (JStr target_puuid)
      ∧ ∀ j, (j < Z.to_nat (idx - 1))%nat → entries !! j ≠ Some (JStr target_puuid).
Proof.
  rewrite resolver_roster. destruct (roster c match_id) as [entries|]; simpl.
  - rewrite find_puuid_Some. split.
    + intros H. by exists entries.
    + by intros (entries' & [= <-] & H).
  - split; [done | by intros (entries & H & _)].
Qed.

(** X2: the resolver yields no index exactly when no roster can be read
    (no match file is found, or the first one cannot be read down to its
    participants) or the roster does not hold the target. *)
Theorem resolver_no_index (c : corpus) (match_id : json) (target_puuid : string) :
  _get_participant_id_for_puuid c match_id target_puuid = None
  ↔ roster c match_id = None
    ∨ ∃ entries, roster c match_id = Some entries ∧ JStr target_puuid ∉ entries.
Proof.
  rewrite resolver_roster. destruct (roster c match_id) as [entries|]; simpl.
  - rewrite find_puuid_None. split.
    + intros H. right. by exists entries.
    + by intros [|(entries' & [= <-] & H)].
  - split; [by left | done].
Qed.

(** ** The first loop *)

Section FirstLoop.

Variable c : corpus.
Variable target_puuid : string.

Implicit Types (f : file) (files : list file) (st : gmap pykey Z * list call).

Lemma resolver_positive match_id p :
  _get_participant_id_for_puuid c match_id target_puuid = Some p → 1 ≤ p.
Proof.
  rewrite resolver_roster. destruct (roster c match_id) as [entries|]; [| done].
  simpl. by intros (H & _)%find_puuid_Some.
Qed.

(** What an iteration does to the mapping. *)
Lemma resolve_step_map st f :
  (resolve_step c target_puuid st f).1
  = store_resolved c target_puuid st.1 f.
Proof.
  unfold resolve_step, store_resolved, resolved_entry.
  destruct (String.eqb (name f) "fetch_summary.json"); [done |].
  destruct (load f) as [timeline_data|]; [| done]. simpl.
  destruct (match_id_of timeline_data) as [match_id|]; [| done]. simpl.
  destruct (_get_participant_id_for_puuid c match_id target_puuid)
    as [participant_id|]; [| done]. simpl.
  destruct (participant_id =? 0); [done |].
  by destruct (hash_key match_id).
Qed.

Lemma foldl_resolve_map files st :
  (foldl (resolve_step c target_puuid) st files).1
  = foldl (store_resolved c target_puuid) st.1 files.
Proof.
  revert st. induction files as [|f files IH]; intros st; [done |].
  simpl. by rewrite IH, resolve_step_map.
Qed.

Lemma fold_entries_lookup files (m : gmap pykey Z) k p :
  foldl (store_resolved c target_puuid) m files !! k = Some p →
  m !! k = Some p
  ∨ ∃ f, f ∈ files ∧ resolved_entry c target_puuid f = Some (k, p).
Proof.
  revert m. induction files as [|f files IH]; intros m; simpl; [by left |].
  intros [H|(g & Hg & Hr)]%IH.
  - unfold store_resolved in H.
    destruct (resolved_entry c target_puuid f) as [[k' p']|] eqn:Hf; [| by left].
    apply lookup_insert_Some in H as [[<- <-]|[_ H]]; [| by left].
    right. exists f. split; [left | done].
  - right. exists g. split; [by right | done].
Qed.

Lemma fold_entries_keeps files (m : gmap pykey Z) k :
  is_Some (m !! k) →
  is_Some (foldl (store_resolved c target_puuid) m files !! k).
Proof.
  revert m. induction files as [|f files IH]; intros m Hm; simpl; [done |].
  apply IH. unfold store_resolved.
  destruct (resolved_entry c target_puuid f) as [[k' p']|]; [| done].
  rewrite lookup_insert_is_Some. destruct (decide (k' = k)); [by left | by right].
Qed.

Lemma fold_entries_size files (m : gmap pykey Z) :
  (size (foldl (store_resolved c target_puuid) m files) ≤ size m + length files)%nat.
Proof.
  revert m. induction files as [|f files IH]; intros m; simpl; [lia |].
  etransitivity; [apply IH |]. unfold store_resolved.
  destruct (resolved_entry c target_puuid f) as [[k' p']|]; [| lia].
  rewrite map_size_insert. destruct (m !! k'); simpl; lia.
Qed.

Lemma resolved_entry_Some f k p :
  resolved_entry c target_puuid f = Some (k, p)
  ↔ name f ≠ "fetch_summary.json"
    ∧ ∃ timeline_data match_id,
        load f = Some timeline_data
        ∧ match_id_of timeline_data = Some match_id
        ∧ hash_key match_id = Some k
        ∧ _get_participant_id_for_puuid c match_id target_puuid = Some p.
Proof.
  unfold resolved_entry. rewrite <- String.eqb_neq.
  destruct (String.eqb (name f) "fetch_summary.json");
    [split; [done | by intros []] |].
  split.
  - intros H. split; [done |].
    destruct (load f) as [timeline_data|]; simpl in H; [| done].
    destruct (match_id_of timeline_data) as [match_id|] eqn:Hid; simpl in H;
      [| done].
    destruct (_get_participant_id_for_puuid c match_id target_puuid)
      as [participant_id|] eqn:Hres; simpl in H; [| done].
    destruct (participant_id =? 0); [done |].
    destruct (hash_key match_id) as [k'|] eqn:Hk; simpl in H; [| done].
    injection H as <- <-. by exists timeline_data, match_id.
  - intros (_ & timeline_data & match_id & -> & Hid & Hk & Hres). simpl.
    rewrite Hid. simpl. rewrite Hres. simpl.
    pose proof (resolver_positive _ _ Hres) as Hpos.
    destruct (Z.eqb_spec p 0) as [|_]; [lia |]. by rewrite Hk.
Qed.

(** An entry under a string key holds what the resolver returns for that
    string. *)
Lemma fold_entries_string files (m : gmap pykey Z) (s : string) p :
  foldl (store_resolved c target_puuid) m files !! KStr s = Some p →
  m !! KStr s = Some p
  ∨ _get_participant_id_for_puuid c (JStr s) target_puuid = Some p.
Proof.
  intros [H|(g & _ & Hg)]%fold_entries_lookup; [by left | right].
  apply resolved_entry_Some in Hg as (_ & data & id & _ & _ & Hk & Hres).
  destruct id; try done. simpl in Hk. by injection Hk as ->.
Qed.

End FirstLoop.

Lemma build_participant_map_fold (c : corpus) (target_puuid : string) :
  (build_participant_map c target_puuid).1
  = foldl (store_resolved c target_puuid) ∅ (timeline_files c).
Proof. unfold build_participant_map. by rewrite foldl_resolve_map. Qed.

(** X3: every entry of the participant mapping comes from a timeline file
    of the corpus that is not the summary artifact, whose match id hashes to
    the entry's key and for which the resolver returned the entry's value;
    the value is a 1-based participant index. *)
Theorem participant_map_sound (c : corpus) (target_puuid : string) (k : pykey)
    (p : Z) :
  (build_participant_map c target_puuid).1 !! k = Some p →
  1 ≤ p
  ∧ ∃ f timeline_data match_id,
      f ∈ timeline_files c
      ∧ name f ≠ "fetch_summary.json"
      ∧ load f = Some timeline_data
      ∧ match_id_of timeline_data = Some match_id
      ∧ hash_key match_id = Some k
      ∧ _get_participant_id_for_puuid c match_id target_puuid = Some p.
Proof.
  rewrite build_participant_map_fold.
  intros [H|(f & Hf & Hr)]%fold_entries_lookup; [by rewrite lookup_empty in H |].
  apply resolved_entry_Some in Hr as (Hname & timeline_data & match_id & Hr).
  split; [eapply resolver_positive; apply Hr |].
  exists f, timeline_data, match_id. tauto.
Qed.

Lemma participant_map_sound_witness :
  1 ≤ 3
  ∧ ∃ f timeline_data match_id,
      f ∈ timeline_files (Example1.corpus_of [Example1.kill_event])
      ∧ name f ≠ "fetch_summary.json"
      ∧ load f = Some timeline_data
      ∧ match_id_of timeline_data = Some match_id
      ∧ hash_key match_id = Some (KStr "M1")
      ∧ _get_participant_id_for_puuid
          (Example1.corpus_of [Example1.kill_event]) match_id "me" = Some 3.
Proof.
  apply (participant_map_sound (Example1.corpus_of [Example1.kill_event]) "me"
           (KStr "M1") 3).
  vm_compute. reflexivity.
Defined.

(** X4: a timeline file that is not the summary artifact, whose match id is
    a string and for which the resolver finds the player, has an entry in
    the participant mapping, with the index the resolver returned. *)
Theorem resolved_match_in_map (c : corpus) (target_puuid : string) (f : file)
    (timeline_data : json) (match_id : string) (p : Z) :
  f ∈ timeline_files c →
  name f ≠ "fetch_summary.json" →
  load f = Some timeline_data →
  match_id_of timeline_data = Some (JStr match_id) →
  _get_participant_id_for_puuid c (JStr match_id) target_puuid = Some p →
  (build_participant_map c target_puuid).1 !! KStr match_id = Some p.
Proof.
  intros Hf Hname Hload Hid Hres.
  assert (Hentry : resolved_entry c target_puuid f = Some (KStr match_id, p)).
  { apply resolved_entry_Some. split; [done |].
    by exists timeline_data, (JStr match_id). }
  assert (Hsome : is_Some ((build_participant_map c target_puuid).1
                             !! KStr match_id)).
  { rewrite build_participant_map_fold.
    apply list_elem_of_split in Hf as (files1 & files2 & ->).
    assert (Hstep : ∀ m, store_resolved c target_puuid m f
                         = <[KStr match_id := p]> m)
      by (intros m; unfold store_resolved; by rewrite Hentry).
    rewrite foldl_app. simpl. rewrite Hstep.
    apply fold_entries_keeps. rewrite lookup_insert_eq. by eexists. }
  destruct Hsome as [p' Hp']. rewrite Hp'. f_equal.
  rewrite build_participant_map_fold in Hp'.
  apply fold_entries_string in Hp' as [Hp'|Hp'];
    [by rewrite lookup_empty in Hp' | congruence].
Qed.

Lemma resolved_match_in_map_witness :
  (build_participant_map (Example1.corpus_of [Example1.kill_event]) "me").1
    !! KStr "M1" = Some 3.
Proof.
  apply (resolved_match_in_map (Example1.corpus_of [Example1.kill_event]) "me"
           (File "timeline_M1.json" (Some (Example1.timeline [Example1.kill_event])))
           (Example1.timeline [Example1.kill_event]) "M1" 3).
  - left.
  - discriminate.
  - reflexivity.
  - reflexivity.
  - reflexivity.
Defined.

(** X5: [total_matches] is the number of entries of the participant
    mapping; it is never more than the number of timeline files. *)
Theorem total_matches_bounded (c : corpus) (target_puuid player_name : string) :
  ∃ n : nat,
    total_matches_of (generate_heatmap_data c target_puuid player_name).1
    = Some (Z.of_nat n)
    ∧ n = size (build_participant_map c target_puuid).1
    ∧ (n ≤ length (timeline_files c))%nat.
Proof.
  exists (size (build_participant_map c target_puuid).1).
  split; [apply total_matches_of_generate |]. split; [done |].
  rewrite build_participant_map_fold.
  pose proof (fold_entries_size c target_puuid (timeline_files c) ∅) as Hsize.
  by rewrite map_size_empty in Hsize.
Qed.

(** X6: [total_matches] counts match ids, not files: a further timeline
    file whose (string) match id is that of a file listed before it changes
    neither the participant mapping nor [total_matches]. *)
Theorem duplicate_match_counted_once (files1 : list file) (f : file)
    (files2 : list file) (g : file) (files3 : list file)
    (matches : json → list file) (target_puuid player_name : string)
    (data_f data_g : json) (match_id : string) :
  name f ≠ "fetch_summary.json" →
  load f = Some data_f →
  match_id_of data_f = Some (JStr match_id) →
  load g = Some data_g →
  match_id_of data_g = Some (JStr match_id) →
  (build_participant_map
     (Corpus (files1 ++ f :: files2 ++ g :: files3) matches) target_puuid).1
  = (build_participant_map
       (Corpus (files1 ++ f :: files2 ++ files3) matches) target_puuid).1
  ∧ total_matches_of
      (generate_heatmap_data
         (Corpus (files1 ++ f :: files2 ++ g :: files3) matches)
         target_puuid player_name).1
    = total_matches_of
        (generate_heatmap_data
           (Corpus (files1 ++ f :: files2 ++ files3) matches)
           target_puuid player_name).1.
Proof.
  intros Hname Hload_f Hid_f Hload_g Hid_g.
  set (c := Corpus (files1 ++ f :: files2 ++ files3) matches).
  assert (Hmap :
    (build_participant_map
       (Corpus (files1 ++ f :: files2 ++ g :: files3) matches) target_puuid).1
    = (build_participant_map c target_puuid).1).
  { rewrite !build_participant_map_fold. simpl timeline_files.
    change (store_resolved
              (Corpus (files1 ++ f :: files2 ++ g :: files3) matches) target_puuid)
      with (store_resolved c target_puuid).
    rewrite !foldl_app. simpl foldl. rewrite !foldl_app. simpl foldl.
    f_equal. set (m := foldl (store_resolved c target_puuid) ∅ files1).
    set (m' := store_resolved c target_puuid m f).
    set (m'' := foldl (store_resolved c target_puuid) m' files2).
    unfold store_resolved at 1.
    destruct (resolved_entry c target_puuid g) as [[k p]|] eqn:Hg; [| done].
    apply resolved_entry_Some in Hg as (_ & data & id & Hload & Hid & Hk & Hres).
    assert (id = JStr match_id) as -> by congruence.
    simpl in Hk. injection Hk as <-.
    assert (Hf : resolved_entry c target_puuid f = Some (KStr match_id, p)).
    { apply resolved_entry_Some. split; [done |].
      by exists data_f, (JStr match_id). }
    assert (Hsome : is_Some (m'' !! KStr match_id)).
    { apply fold_entries_keeps. unfold m', store_resolved. rewrite Hf.
      rewrite lookup_insert_eq. by eexists. }
    destruct Hsome as [p' Hp']. apply insert_id. rewrite Hp'. f_equal.
    apply fold_entries_string in Hp' as [Hp'|Hp']; [| congruence].
    unfold m', store_resolved in Hp'. rewrite Hf, lookup_insert_eq in Hp'.
    congruence. }
  split; [exact Hmap |]. by rewrite !total_matches_of_generate, Hmap.
Qed.

Lemma duplicate_match_counted_once_witness :
  (build_participant_map
     (Corpus ([] ++ Example2.known_match_file :: []
              ++ Example2.known_match_file :: []) Example1.matches) "me").1
  = (build_participant_map
       (Corpus ([] ++ Example2.known_match_file :: [] ++ []) Example1.matches)
       "me").1
  ∧ total_matches_of
      (generate_heatmap_data
         (Corpus ([] ++ Example2.known_match_file :: []
                  ++ Example2.known_match_file :: []) Example1.matches)
         "me" "Player").1
    = total_matches_of
        (generate_heatmap_data
           (Corpus ([] ++ Example2.known_match_file :: [] ++ []) Example1.matches)
           "me" "Player").1.
Proof.
  apply (duplicate_match_counted_once [] Example2.known_match_file []
           Example2.known_match_file [] Example1.matches "me" "Player"
           (Example1.timeline [Example1.kill_event])
           (Example1.timeline [Example1.kill_event]) "M1");
    [discriminate | reflexivity..].
Defined.

(** ** The rules of the classifier *)

Section Rules.

Implicit Types (a : accum) (p minute : Z) (event x y timestamp : json).

Lemma placement_Some event x y timestamp minute :
  placement event = Some (x, y, timestamp, minute) →
  ∃ pos,
    py_get event "position" JNull = Some pos
    ∧ truthy pos = true
    ∧ subscript event "position" = Some pos
    ∧ subscript pos "x" = Some x
    ∧ subscript pos "y" = Some y
    ∧ subscript event "timestamp" = Some timestamp
    ∧ floordiv timestamp 60000 = Some minute.
Proof.
  unfold placement. intros H.
  destruct event as [| | | | |d]; try done. simpl in *.
  destruct (assoc "position" d) as [pos|]; [| done]. simpl in H.
  destruct (subscript pos "x") as [x'|] eqn:Hx; [| done]. simpl in H.
  destruct (subscript pos "y") as [y'|] eqn:Hy; [| done]. simpl in H.
  destruct (assoc "timestamp" d) as [timestamp'|]; [| done]. simpl in H.
  destruct (floordiv timestamp' 60000) as [minute'|] eqn:Hm; [| done].
  injection H as <- <- <- <-. exists pos. repeat split; try done.
  destruct pos as [| | | | |fields]; try done. by destruct fields.
Qed.

Lemma heatmap_point_placed pos x y timestamp match_id peer_key peer :
  subscript pos "x" = Some x →
  subscript pos "y" = Some y →
  heatmap_point pos timestamp match_id peer_key peer
  = Some (point_dict x y timestamp match_id peer_key peer).
Proof. unfold heatmap_point. by intros -> ->. Qed.

(** The if-chain on an event that has a position with coordinates, an
    integer timestamp and a type. *)
Lemma process_event_placed p match_id a event x y timestamp minute type :
  placement event = Some (x, y, timestamp, minute) →
  subscript event "type" = Some type →
  process_event p match_id a event
  = if py_eq_str type "CHAMPION_KILL"
       && py_eq_int (field event "victimId") p then
      Some (record_event deaths
              (point_dict x y timestamp match_id "killer_id" (field event "killerId"))
              minute a)
    else if py_eq_str type "CHAMPION_KILL"
            && py_eq_int (field event "killerId") p then
      Some (record_event kills
              (point_dict x y timestamp match_id "victim_id" (field event "victimId"))
              minute a)
    else
      is_assist ← py_and (py_eq_str type "CHAMPION_KILL") (in_assisting p event);
      if (is_assist : bool) then
        Some (record_event assists
                (point_dict x y timestamp match_id "victim_id" (field event "victimId"))
                minute a)
      else if py_eq_str type "ELITE_MONSTER_KILL"
              && py_eq_int (field event "killerId") p then
        Some (record_event objectives
                (point_dict x y timestamp match_id "monster_type"
                   (field event "monsterType"))
                minute a)
      else if py_eq_str type "BUILDING_KILL" then
        assisted ← in_assisting p event;
        if (assisted : bool) || py_eq_int (field event "killerId") p then
          Some (record_event objectives
                  (point_dict x y timestamp match_id "building_type"
                     (field event "buildingType"))
                  minute a)
        else Some a
      else Some a.
Proof.
  intros (pos & Hget & Htruthy & Hpos & Hx & Hy & Hts & Hminute)%placement_Some Htype.
  unfold process_event.
  rewrite Hget. simpl. rewrite Htruthy, Hpos. simpl. rewrite Hts. simpl.
  rewrite Hminute. simpl. rewrite Htype. simpl.
  rewrite !(heatmap_point_placed pos x y) by done. done.
Qed.


(** What [record_event] changes, field by field. *)
Lemma record_event_fields cat (point : pyval) minute a :
  cat_get cat (heatmap_data (record_event cat point minute a))
  = cat_get cat (heatmap_data a) ++ [point]
  ∧ cat_get cat (counts (stats (record_event cat point minute a)))
    = cat_get cat (counts (stats a)) + 1
  ∧ cat_get cat (timeline_stats (record_event cat point minute a)) !! minute
    = Some (default 0 (cat_get cat (timeline_stats a) !! minute) + 1)
  ∧ (∀ m, m ≠ minute →
          cat_get cat (timeline_stats (record_event cat point minute a)) !! m
          = cat_get cat (timeline_stats a) !! m)
  ∧ total_matches (stats (record_event cat point minute a))
    = total_matches (stats a)
  ∧ ∀ cat', cat' ≠ cat →
      cat_get cat' (heatmap_data (record_event cat point minute a))
      = cat_get cat' (heatmap_data a)
      ∧ cat_get cat' (counts (stats (record_event cat point minute a)))
        = cat_get cat' (counts (stats a))
      ∧ cat_get cat' (timeline_stats (record_event cat point minute a))
        = cat_get cat' (timeline_stats a).
Proof.
  unfold record_event. simpl. rewrite !cat_get_upd_eq.
  split; [done |]. split; [done |].
  split; [unfold bump; by rewrite lookup_insert_eq |].
  split; [intros m Hm; unfold bump; by rewrite lookup_insert_ne |].
  split; [done |].
  intros cat' Hne. by rewrite !cat_get_upd_ne.
Qed.

End Rules.

(** X7: a champion kill whose killer is the player, who is not its victim,
    is recorded as a kill: one point with the event's [x], [y] and
    [timestamp], the match id and the victim's id is appended to the kills,
    [kills_count] and the kills bucket of the event's minute go up by one,
    and nothing else changes. *)
Theorem kill_rule (p : Z) (match_id : json) (a : accum)
    (event x y timestamp : json) (minute : Z) :
  placement event = Some (x, y, timestamp, minute) →
  subscript event "type" = Some (JStr "CHAMPION_KILL") →
  py_eq_int (field event "victimId") p = false →
  py_eq_int (field event "killerId") p = true →
  ∃ a',
    process_event p match_id a event = Some a'
    ∧ cat_get kills (heatmap_data a')
      = cat_get kills (heatmap_data a)
        ++ [VDict [("x", VJson x); ("y", VJson y); ("timestamp", VJson timestamp);
                   ("match_id", VJson match_id);
                   ("victim_id", VJson (field event "victimId"))]]
    ∧ cat_get kills (counts (stats a')) = cat_get kills (counts (stats a)) + 1
    ∧ cat_get kills (timeline_stats a') !! minute
      = Some (default 0 (cat_get kills (timeline_stats a) !! minute) + 1)
    ∧ (∀ m, m ≠ minute →
            cat_get kills (timeline_stats a') !! m
            = cat_get kills (timeline_stats a) !! m)
    ∧ total_matches (stats a') = total_matches (stats a)
    ∧ ∀ cat, cat ≠ kills →
        cat_get cat (heatmap_data a') = cat_get cat (heatmap_data a)
        ∧ cat_get cat (counts (stats a')) = cat_get cat (counts (stats a))
        ∧ cat_get cat (timeline_stats a') = cat_get cat (timeline_stats a).
Proof.
  intros Hplaced Htype Hvictim Hkiller. eexists. split.
  { rewrite (process_event_placed _ _ _ _ _ _ _ _ _ Hplaced Htype).
    simpl. by rewrite Hvictim, Hkiller. }
  apply record_event_fields.
Qed.

Lemma kill_rule_witness :
  ∃ a',
    process_event 3 (JStr "M1") (initial_accum ∅ []) Example1.kill_event = Some a'
    ∧ cat_get kills (heatmap_data a')
      = cat_get kills (heatmap_data (initial_accum ∅ []))
        ++ [VDict [("x", VJson (JInt 100)); ("y", VJson (JInt 200));
                   ("timestamp", VJson (JInt 65000));
                   ("match_id", VJson (JStr "M1"));
                   ("victim_id", VJson (field Example1.kill_event "victimId"))]]
    ∧ cat_get kills (counts (stats a'))
      = cat_get kills (counts (stats (initial_accum ∅ []))) + 1
    ∧ cat_get kills (timeline_stats a') !! 1
      = Some (default 0 (cat_get kills (timeline_stats (initial_accum ∅ [])) !! 1)
              + 1)
    ∧ (∀ m, m ≠ 1 →
            cat_get kills (timeline_stats a') !! m
            = cat_get kills (timeline_stats (initial_accum ∅ [])) !! m)
    ∧ total_matches (stats a') = total_matches (stats (initial_accum ∅ []))
    ∧ ∀ cat, cat ≠ kills →
        cat_get cat (heatmap_data a')
        = cat_get cat (heatmap_data (initial_accum ∅ []))
        ∧ cat_get cat (counts (stats a'))
          = cat_get cat (counts (stats (initial_accum ∅ [])))
        ∧ cat_get cat (timeline_stats a')
          = cat_get cat (timeline_stats (initial_accum ∅ [])).
Proof.
  apply (kill_rule 3 (JStr "M1") (initial_accum ∅ []) Example1.kill_event
           (JInt 100) (JInt 200) (JInt 65000) 1); reflexivity.
Defined.





(** X9: an elite-monster kill of which the player is the killer is
    recorded as an objective: one point with the event's [x], [y] and
    [timestamp], the match id and the monster type is appended to the
    objectives, [objectives_count] and the objectives bucket of the event's
    minute go up by one, and nothing else changes.  An elite-monster kill by
    someone else leaves the accumulators as they are, also when the player
    assisted. *)
Theorem elite_monster_rule (p : Z) (match_id : json) (a : accum)
    (event x y timestamp : json) (minute : Z) :
  placement event = Some (x, y, timestamp, minute) →
  subscript event "type" = Some (JStr "ELITE_MONSTER_KILL") →
  (py_eq_int (field event "killerId") p = true →
   ∃ a',
     process_event p match_id a event = Some a'
     ∧ cat_get objectives (heatmap_data a')
       = cat_get objectives (heatmap_data a)
         ++ [VDict [("x", VJson x); ("y", VJson y); ("timestamp", VJson timestamp);
                    ("match_id", VJson match_id);
                    ("monster_type", VJson (field event "monsterType"))]]
     ∧ cat_get objectives (counts (stats a'))
       = cat_get objectives (counts (stats a)) + 1
     ∧ cat_get objectives (timeline_stats a') !! minute
       = Some (default 0 (cat_get objectives (timeline_stats a) !! minute) + 1)
     ∧ (∀ m, m ≠ minute →
             cat_get objectives (timeline_stats a') !! m
             = cat_get objectives (timeline_stats a) !! m)
     ∧ total_matches (stats a') = total_matches (stats a)
     ∧ ∀ cat, cat ≠ objectives →
         cat_get cat (heatmap_data a') = cat_get cat (heatmap_data a)
         ∧ cat_get cat (counts (stats a')) = cat_get cat (counts (stats a))
         ∧ cat_get cat (timeline_stats a') = cat_get cat (timeline_stats a))
  ∧ (py_eq_int (field event "killerId") p = false →
     process_event p match_id a event = Some a).
Proof.
  intros Hplaced Htype.
  rewrite (process_event_placed _ _ _ _ _ _ _ _ _ Hplaced Htype). simpl.
  split; intros Hkiller; rewrite Hkiller; [| done].
  eexists. split; [reflexivity |].
  exact (record_event_fields objectives _ minute a).
Qed.

Lemma elite_monster_rule_witness :
  (∃ a',
     process_event 3 (JStr "M1") (initial_accum ∅ []) Example2.own_monster_event
     = Some a'
     ∧ cat_get objectives (heatmap_data a')
       = cat_get objectives (heatmap_data (initial_accum ∅ []))
         ++ [VDict [("x", VJson (JInt 5)); ("y", VJson (JInt 6));
                    ("timestamp", VJson (JInt 600000));
                    ("match_id", VJson (JStr "M1"));
                    ("monster_type",
                     VJson (field Example2.own_monster_event "monsterType"))]]
     ∧ cat_get objectives (counts (stats a'))
       = cat_get objectives (counts (stats (initial_accum ∅ []))) + 1
     ∧ cat_get objectives (timeline_stats a') !! 10
       = Some (default 0
                 (cat_get objectives (timeline_stats (initial_accum ∅ [])) !! 10)
               + 1)
     ∧ (∀ m, m ≠ 10 →
             cat_get objectives (timeline_stats a') !! m
             = cat_get objectives (timeline_stats (initial_accum ∅ [])) !! m)
     ∧ total_matches (stats a') = total_matches (stats (initial_accum ∅ []))
     ∧ ∀ cat, cat ≠ objectives →
         cat_get cat (heatmap_data a')
         = cat_get cat (heatmap_data (initial_accum ∅ []))
         ∧ cat_get cat (counts (stats a'))
           = cat_get cat (counts (stats (initial_accum ∅ [])))
         ∧ cat_get cat (timeline_stats a')
           = cat_get cat (timeline_stats (initial_accum ∅ [])))
  ∧ process_event 3 (JStr "M1") (initial_accum ∅ []) Example2.monster_event
    = Some (initial_accum ∅ []).
Proof.
  split.
  - apply (elite_monster_rule 3 (JStr "M1") (initial_accum ∅ [])
             Example2.own_monster_event (JInt 5) (JInt 6) (JInt 600000) 10);
      reflexivity.
  - apply (elite_monster_rule 3 (JStr "M1") (initial_accum ∅ [])
             Example2.monster_event (JInt 5) (JInt 6) (JInt 600000) 10);
      reflexivity.
Defined.





(** X11: an event of any other type is ignored, whatever its participant
    ids are; it needs a timestamp but no coordinates. *)
Theorem other_types_ignored (p : Z) (match_id : json) (a : accum)
    (event type : json) (minute : Z) :
  truthy (field event "position") = true →
  minute_of event = Some minute →
  subscript event "type" = Some type →
  py_eq_str type "CHAMPION_KILL" = false →
  py_eq_str type "ELITE_MONSTER_KILL" = false →
  py_eq_str type "BUILDING_KILL" = false →
  process_event p match_id a event = Some a.
Proof.
  unfold minute_of, field. intros Htruthy Hminute Htype Hc He Hb.
  destruct event as [| | | | |d]; try done. unfold process_event. simpl in *.
  rewrite Htruthy. simpl.
  destruct (assoc "position" d) as [pos|]; [| done]. simpl.
  destruct (assoc "timestamp" d) as [timestamp|]; [| done]. simpl in *.
  rewrite Hminute. simpl. rewrite Htype. simpl. by rewrite Hc, He, Hb.
Qed.

Lemma other_types_ignored_witness :
  process_event 3 (JStr "M1") (initial_accum ∅ []) Example2.other_event
  = Some (initial_accum ∅ []).
Proof.
  apply (other_types_ignored 3 (JStr "M1") (initial_accum ∅ [])
           Example2.other_event (JStr "CHAMPION_SPECIAL_KILL") 2); reflexivity.
Defined.


(** X12: an event with a position raises, whatever else it holds, when it
    has no timestamp, when its timestamp is [null], a string, a list or a
    dictionary, or when it has no type. *)
Theorem untimed_event_raises (p : Z) (match_id : json) (a : accum) (event : json) :
  truthy (field event "position") = true →
  subscript event "timestamp" = None
  ∨ (∃ timestamp,
       subscript event "timestamp" = Some timestamp
       ∧ not_a_number timestamp = true)
  ∨ subscript event "type" = None →
  process_event p match_id a event = None.
Proof.
  unfold field. intros Htruthy H.
  destruct event as [| | | | |d]; try done. unfold process_event. simpl in *.
  rewrite Htruthy. simpl.
  destruct (assoc "position" d) as [pos|]; [| done]. simpl.
  destruct (assoc "timestamp" d) as [timestamp|]; [| done]. simpl.
  destruct H as [H|[(timestamp' & [= <-] & Hnan)|H]]; [done | |].
  - by destruct timestamp.
  - destruct (floordiv timestamp 60000) as [minute|]; [| done]. simpl.
    by rewrite H.
Qed.

Lemma untimed_event_raises_witness :
  process_event 3 (JStr "M1") (initial_accum ∅ []) Example1.broken_event = None.
Proof.
  apply (untimed_event_raises 3 (JStr "M1") (initial_accum ∅ [])
           Example1.broken_event); [reflexivity | left; reflexivity].
Defined.


(** X13: when [assistingParticipantIds] is present but is not a list or a
    dictionary (null, a number, a string), the membership test raises: for a
    champion kill of which the player is neither victim nor killer, and for
    every building kill, also one the player made. *)
Theorem malformed_assisting_raises (p : Z) (match_id : json) (a : accum)
    (event x y timestamp assisting : json) (minute : Z) :
  placement event = Some (x, y, timestamp, minute) →
  py_get event "assistingParticipantIds" (JArr []) = Some assisting →
  py_in_int p assisting = None →
  (subscript event "type" = Some (JStr "CHAMPION_KILL")
   ∧ py_eq_int (field event "victimId") p = false
   ∧ py_eq_int (field event "killerId") p = false)
  ∨ subscript event "type" = Some (JStr "BUILDING_KILL") →
  process_event p match_id a event = None.
Proof.
  intros Hplaced Hget Hin [(Htype & Hvictim & Hkiller)|Htype];
    rewrite (process_event_placed _ _ _ _ _ _ _ _ _ Hplaced Htype); simpl.
  - rewrite Hvictim, Hkiller. unfold in_assisting. rewrite Hget. simpl.
    by rewrite Hin.
  - unfold in_assisting. rewrite Hget. simpl. by rewrite Hin.
Qed.

Lemma malformed_assisting_raises_witness :
  process_event 3 (JStr "M1") (initial_accum ∅ []) Example2.null_assist_event
  = None.
Proof.
  apply (malformed_assisting_raises 3 (JStr "M1") (initial_accum ∅ [])
           Example2.null_assist_event (JInt 5) (JInt 6) (JInt 130000) JNull 2);
    [reflexivity | reflexivity | reflexivity |].
  left. repeat split; reflexivity.
Defined.

(** ** The effect of one event *)

Section Effects.

Implicit Types (a b : accum) (p : Z) (event match_id : json) (e : event_effect).

Lemma heatmap_point_Some pos timestamp match_id peer_key peer point :
  heatmap_point pos timestamp match_id peer_key peer = Some point →
  ∃ x y,
    subscript pos "x" = Some x
    ∧ subscript pos "y" = Some y
    ∧ point = point_dict x y timestamp match_id peer_key peer.
Proof.
  unfold heatmap_point. intros H.
  destruct (subscript pos "x") as [x|]; [| done].
  destruct (subscript pos "y") as [y|]; [| done].
  injection H as <-. by exists x, y.
Qed.

(** What an event does is decided by the event, the participant index and
    the match id alone. *)
Lemma process_event_effect p match_id event :
  ∃ e,
    effect_sound match_id event e
    ∧ ∀ a, process_event p match_id a event = apply_effect e a.
Proof.
  unfold process_event.
  destruct (py_get event "position" JNull) as [position|]; simpl;
    [| by exists Raises].
  destruct (truthy position); simpl; [| by exists Ignored].
  destruct (subscript event "position") as [pos|] eqn:Hpos; simpl;
    [| by exists Raises].
  destruct (subscript event "timestamp") as [timestamp|] eqn:Hts; simpl;
    [| by exists Raises].
  destruct (floordiv timestamp 60000) as [minute|] eqn:Hminute; simpl;
    [| by exists Raises].
  destruct (subscript event "type") as [type|]; simpl; [| by exists Raises].
  repeat match goal with
  | |- context [if ?b then _ else _] => destruct b; simpl
  | |- context [match ?o with Some _ => _ | None => _ end] =>
      let Hp := fresh "Hpoint" in destruct o eqn:Hp; simpl
  | |- context [?o ≫= _] =>
      let Hp := fresh "Hpoint" in destruct o eqn:Hp; simpl
  end.
  all: try (by exists Raises); try (by exists Ignored).
  all: eexists (Recorded _ _ _); (split; [| reflexivity]); simpl.
  all: match goal with
       | H : heatmap_point _ _ _ _ _ = Some _ |- _ =>
           apply heatmap_point_Some in H as (x & y & Hx & Hy & ->)
       end.
  all: exists pos, x, y, timestamp; eexists _, _;
    refine (conj Hpos (conj Hx (conj Hy (conj Hts (conj Hminute (conj _ eq_refl))))));
    simpl; auto.
Qed.

Lemma effect_placement match_id event cat point minute :
  effect_sound match_id event (Recorded cat point minute) →
  ∃ x y timestamp peer_key peer,
    placement event = Some (x, y, timestamp, minute)
    ∧ peer_key_of cat peer_key
    ∧ point = point_dict x y timestamp match_id peer_key peer.
Proof.
  intros (pos & x & y & timestamp & peer_key & peer
          & Hpos & Hx & Hy & Hts & Hminute & Hkey & ->).
  exists x, y, timestamp, peer_key, peer. split; [| done].
  unfold placement. rewrite Hpos. simpl. rewrite Hx. simpl. rewrite Hy. simpl.
  rewrite Hts. simpl. by rewrite Hminute.
Qed.

(** Whether an event raises does not depend on the accumulators. *)
Lemma process_event_raises p match_id a b event :
  process_event p match_id a event = None →
  process_event p match_id b event = None.
Proof.
  destruct (process_event_effect p match_id event) as (e & _ & He).
  rewrite !He. by destruct e.
Qed.

Lemma process_events_raising p match_id a0 a events1 bad events2 :
  process_event p match_id a0 bad = None →
  (process_events p match_id a (events1 ++ bad :: events2)).2 = true.
Proof.
  intros Hbad. revert a. induction events1 as [|event events1 IH]; intros a; simpl.
  - by rewrite (process_event_raises _ _ _ _ _ Hbad).
  - destruct (process_event p match_id _ event); [apply IH | done].
Qed.

End Effects.

(** X14: an event changes the accumulators by at most one point in one
    category, and that point is made of the event's own coordinates and
    timestamp, the match id of its record and the category's peer key; so
    an event whose position lacks [x] or [y] is never recorded. *)
Theorem event_records_one_point (p : Z) (match_id : json) (a a' : accum)
    (event : json) :
  process_event p match_id a event = Some a' →
  a' = a
  ∨ ∃ cat x y timestamp minute peer_key peer,
      placement event = Some (x, y, timestamp, minute)
      ∧ peer_key_of cat peer_key
      ∧ a' = record_event cat (point_dict x y timestamp match_id peer_key peer)
               minute a.
Proof.
  destruct (process_event_effect p match_id event) as (e & Hsound & He).
  rewrite He. destruct e as [| |cat point minute]; simpl; [done | |].
  - intros [= <-]. by left.
  - intros [= <-]. right.
    apply effect_placement in Hsound
      as (x & y & timestamp & peer_key & peer & Hplaced & Hkey & ->).
    by exists cat, x, y, timestamp, minute, peer_key, peer.
Qed.

Lemma event_records_one_point_witness :
  record_event kills Example1.kill_point 1 (initial_accum ∅ []) = initial_accum ∅ []
  ∨ ∃ cat x y timestamp minute peer_key peer,
      placement Example1.kill_event = Some (x, y, timestamp, minute)
      ∧ peer_key_of cat peer_key
      ∧ record_event kills Example1.kill_point 1 (initial_accum ∅ [])
        = record_event cat (point_dict x y timestamp (JStr "M1") peer_key peer)
            minute (initial_accum ∅ []).
Proof.
  apply (event_records_one_point 3 (JStr "M1") (initial_accum ∅ [])
           (record_event kills Example1.kill_point 1 (initial_accum ∅ []))
           Example1.kill_event).
  reflexivity.
Defined.


(** X15: when an event raises, the events after it in its frame and the
    frames after that frame are not processed: the accumulators are those
    of the record cut off after the raising event. *)
Theorem raise_ends_record (p : Z) (match_id : json) (a0 a : accum)
    (events1 : list json) (bad : json) (events2 frames1 frames2 : list json) :
  process_event p match_id a0 bad = None →
  process_events p match_id a (events1 ++ bad :: events2)
  = process_events p match_id a (events1 ++ [bad])
  ∧ process_frames p match_id a
      (frames1 ++ JObj [("events", JArr (events1 ++ bad :: events2))] :: frames2)
    = process_frames p match_id a
        (frames1 ++ [JObj [("events", JArr (events1 ++ [bad]))]]).
Proof.
  intros Hbad.
  assert (Hevents : ∀ a1,
    process_events p match_id a1 (events1 ++ bad :: events2)
    = process_events p match_id a1 (events1 ++ [bad])).
  { induction events1 as [|event events1 IH]; intros a1; simpl.
    - by rewrite (process_event_raises _ _ _ _ _ Hbad).
    - destruct (process_event p match_id _ event); [apply IH | done]. }
  split; [apply Hevents |].
  revert a. induction frames1 as [|frame frames1 IH]; intros a; simpl.
  - rewrite Hevents.
    by rewrite (process_events_raising _ _ _ _ events1 bad [] Hbad).
  - destruct (py_get frame "events" (JArr []) ≫= py_iter) as [events|]; [| done].
    destruct (process_events p match_id a events).2; [done | apply IH].
Qed.

Lemma raise_ends_record_witness :
  process_events 3 (JStr "M1") (initial_accum ∅ [])
    ([Example1.kill_event] ++ Example1.broken_event :: [Example1.death_event])
  = process_events 3 (JStr "M1") (initial_accum ∅ [])
      ([Example1.kill_event] ++ [Example1.broken_event])
  ∧ process_frames 3 (JStr "M1") (initial_accum ∅ [])
      ([] ++ JObj [("events",
                    JArr ([Example1.kill_event]
                          ++ Example1.broken_event :: [Example1.death_event]))]
          :: [JObj [("events", JArr [Example1.death_event])]])
    = process_frames 3 (JStr "M1") (initial_accum ∅ [])
        ([] ++ [JObj [("events",
                       JArr ([Example1.kill_event] ++ [Example1.broken_event]))]]).
Proof.
  apply (raise_ends_record 3 (JStr "M1") (initial_accum ∅ []) (initial_accum ∅ [])
           [Example1.kill_event] Example1.broken_event [Example1.death_event]
           [] [JObj [("events", JArr [Example1.death_event])]]).
  reflexivity.
Defined.

(** ** The trace does not influence the outputs *)

Section Outputs.

Implicit Types (a b : accum) (p : Z) (match_id : json).

Lemma same_outputs_refl a : same_outputs a a.
Proof. done. Qed.

Lemma same_outputs_log k a b : same_outputs a b → same_outputs (log_call k a) b.
Proof. done. Qed.

Lemma same_outputs_effect e a b :
  same_outputs a b →
  match apply_effect e a, apply_effect e b with
  | Some a', Some b' => same_outputs a' b'
  | None, None => True
  | _, _ => False
  end.
Proof.
  intros (Hh & Hs & Ht). destruct e as [| |cat point minute]; simpl; [done.. |].
  unfold same_outputs. simpl. by rewrite Hh, Hs, Ht.
Qed.

Lemma same_outputs_events p match_id events a b :
  same_outputs a b →
  same_outputs (process_events p match_id a events).1
               (process_events p match_id b events).1
  ∧ (process_events p match_id a events).2 = (process_events p match_id b events).2.
Proof.
  revert a b. induction events as [|event events IH]; intros a b Hab; [done |].
  simpl. destruct (process_event_effect p match_id event) as (e & _ & He).
  rewrite !He.
  pose proof (same_outputs_effect e
                (log_call (Classify event p) a) (log_call (Classify event p) b))
    as Heff.
  destruct (apply_effect e (log_call (Classify event p) a)) as [a'|],
           (apply_effect e (log_call (Classify event p) b)) as [b'|];
    try (by destruct Heff).
  apply IH. by apply Heff.
Qed.

Lemma same_outputs_frames p match_id frames a b :
  same_outputs a b →
  same_outputs (process_frames p match_id a frames).1
               (process_frames p match_id b frames).1.
Proof.
  revert a b. induction frames as [|frame frames IH]; intros a b Hab; [done |].
  simpl. destruct (py_get frame "events" (JArr []) ≫= py_iter) as [events|];
    [| done].
  destruct (same_outputs_events p match_id events a b Hab) as [Hout Hflag].
  rewrite <- Hflag. destruct (process_events p match_id a events).2; [done |].
  by apply IH.
Qed.

Lemma same_outputs_timeline pmap f a b :
  same_outputs a b →
  same_outputs (process_timeline pmap a f) (process_timeline pmap b f).
Proof.
  intros Hab. unfold process_timeline.
  destruct (String.eqb (name f) "fetch_summary.json"); [done |].
  destruct (load f) as [timeline_data|]; [| done].
  destruct (match_id_of timeline_data) as [match_id|]; [| done].
  destruct (hash_key match_id) as [k|]; [| done].
  destruct (pmap !! k) as [p|]; [| done].
  destruct (info ← subscript timeline_data "info";
            frames ← subscript info "frames"; py_iter frames) as [frames|];
    [| done].
  by apply same_outputs_frames.
Qed.

Lemma same_outputs_fold pmap files a b :
  same_outputs a b →
  same_outputs (foldl (process_timeline pmap) a files)
               (foldl (process_timeline pmap) b files).
Proof.
  revert a b. induction files as [|f files IH]; intros a b Hab; [done |].
  simpl. apply IH. by apply same_outputs_timeline.
Qed.

End Outputs.

(** The response is assembled from the accumulators after both loops, also
    when there is no timeline file. *)
Lemma generate_fst (c : corpus) (target_puuid player_name : string) :
  (generate_heatmap_data c target_puuid player_name).1
  = response target_puuid player_name
      (stats (aggregate c target_puuid).2)
      (heatmap_data (aggregate c target_puuid).2)
      (cat_map (λ b, _format_timeline_data b (divisor (aggregate c target_puuid).1))
               (timeline_stats (aggregate c target_puuid).2)).
Proof.
  destruct (timeline_files c) as [|f files] eqn:Hfiles.
  - unfold generate_heatmap_data, aggregate, build_participant_map.
    by rewrite Hfiles.
  - rewrite generate_nonempty; [done | by rewrite Hfiles].
Qed.


(** ** Records that are passed over *)

Section PassedOver.

Variable matches : json → list file.
Variable target_puuid : string.

Implicit Types (f : file) (files : list file).

Lemma resolved_entry_corpus files files' f :
  resolved_entry (Corpus files matches) target_puuid f
  = resolved_entry (Corpus files' matches) target_puuid f.
Proof. done. Qed.

(** A file for which the first loop stores nothing does not change the
    mapping. *)
Lemma participant_map_skip files1 f files2 :
  resolved_entry (Corpus (files1 ++ files2) matches) target_puuid f = None →
  (build_participant_map (Corpus (files1 ++ f :: files2) matches) target_puuid).1
  = (build_participant_map (Corpus (files1 ++ files2) matches) target_puuid).1.
Proof.
  intros Hf. rewrite !build_participant_map_fold. simpl timeline_files.
  change (store_resolved (Corpus (files1 ++ f :: files2) matches) target_puuid)
    with (store_resolved (Corpus (files1 ++ files2) matches) target_puuid).
  assert (Hstep : ∀ m, store_resolved (Corpus (files1 ++ files2) matches)
                         target_puuid m f = m)
    by (intros m; unfold store_resolved; by rewrite Hf).
  rewrite !foldl_app. simpl. by rewrite Hstep.
Qed.

Lemma process_timeline_unresolved (pmap : gmap pykey Z) a f timeline_data match_id k :
  load f = Some timeline_data →
  match_id_of timeline_data = Some match_id →
  hash_key match_id = Some k →
  pmap !! k = None →
  process_timeline pmap a f = a.
Proof.
  intros Hload Hid Hk Hnone. unfold process_timeline.
  rewrite Hload, Hid, Hk, Hnone.
  by destruct (String.eqb (name f) "fetch_summary.json").
Qed.

End PassedOver.

(** X16: a timeline record whose match id has no entry in the participant
    mapping, the player not having been resolved for it, contributes
    nothing and is not counted: the response is that of the corpus without
    the record. *)
Theorem unresolved_match_skipped (files1 : list file) (f : file)
    (files2 : list file) (matches : json → list file)
    (target_puuid player_name : string) (timeline_data match_id : json)
    (k : pykey) :
  load f = Some timeline_data →
  match_id_of timeline_data = Some match_id →
  hash_key match_id = Some k →
  (build_participant_map (Corpus (files1 ++ f :: files2) matches) target_puuid).1
    !! k = None →
  (generate_heatmap_data (Corpus (files1 ++ f :: files2) matches)
     target_puuid player_name).1
  = (generate_heatmap_data (Corpus (files1 ++ files2) matches)
       target_puuid player_name).1.
Proof.
  intros Hload Hid Hk Hnone.
  assert (Hentry : resolved_entry (Corpus (files1 ++ files2) matches)
                     target_puuid f = None).
  { destruct (resolved_entry (Corpus (files1 ++ files2) matches) target_puuid f)
      as [[k' p]|] eqn:Hentry; [| done].
    pose proof Hentry as Hentry'.
    apply resolved_entry_Some in Hentry'
      as (_ & data & id & Hload' & Hid' & Hk' & _).
    assert (k' = k) as -> by congruence.
    rewrite build_participant_map_fold in Hnone. simpl timeline_files in Hnone.
    assert (Hstep : ∀ m, store_resolved (Corpus (files1 ++ f :: files2) matches)
                           target_puuid m f = <[k := p]> m).
    { intros m. unfold store_resolved.
      by rewrite (resolved_entry_corpus _ _ _ (files1 ++ files2) f), Hentry. }
    rewrite foldl_app in Hnone. simpl in Hnone. rewrite Hstep in Hnone.
    pose proof (fold_entries_keeps
                  (Corpus (files1 ++ f :: files2) matches) target_puuid files2
                  (<[k := p]>
                     (foldl (store_resolved
                               (Corpus (files1 ++ f :: files2) matches)
                               target_puuid) ∅ files1)) k) as Hsome.
    rewrite Hnone in Hsome. destruct Hsome as [? Hsome]; [| done].
    rewrite lookup_insert_eq. by eexists. }
  pose proof (participant_map_skip matches target_puuid files1 f files2 Hentry)
    as Hmap.
  rewrite !generate_fst. unfold aggregate. simpl fst. simpl snd.
  rewrite <- Hmap.
  set (pmap := (build_participant_map (Corpus (files1 ++ f :: files2) matches)
                  target_puuid).1) in *.
  simpl timeline_files. rewrite !foldl_app. simpl foldl.
  rewrite (process_timeline_unresolved pmap _ f timeline_data match_id k)
    by done.
  match goal with
  | |- response _ _ (stats ?a) _ _ = response _ _ (stats ?b) _ _ =>
      assert (Hout : same_outputs a b)
  end.
  { apply same_outputs_fold, same_outputs_fold. done. }
  destruct Hout as (-> & -> & ->). done.
Qed.

Lemma unresolved_match_skipped_witness :
  (generate_heatmap_data
     (Corpus ([Example2.known_match_file] ++ Example2.unknown_match_file :: [])
        Example1.matches) "me" "Player").1
  = (generate_heatmap_data
       (Corpus ([Example2.known_match_file] ++ []) Example1.matches)
       "me" "Player").1.
Proof.
  apply (unresolved_match_skipped [Example2.known_match_file]
           Example2.unknown_match_file [] Example1.matches "me" "Player"
           (JObj [("metadata", JObj [("matchId", JStr "M9")]);
                  ("info",
                   JObj [("frames",
                          JArr [JObj [("events", JArr [Example1.kill_event])]])])])
           (JStr "M9") (KStr "M9")); vm_compute; reflexivity.
Defined.

Lemma generate_inert (files1 : list file) (f : file) (files2 : list file)
    (matches : json → list file) (target_puuid player_name : string) :
  (∀ st, resolve_step (Corpus (files1 ++ files2) matches) target_puuid st f = st) →
  (∀ pmap a, process_timeline pmap a f = a) →
  generate_heatmap_data (Corpus (files1 ++ f :: files2) matches)
    target_puuid player_name
  = generate_heatmap_data (Corpus (files1 ++ files2) matches)
      target_puuid player_name.
Proof.
  intros Hfirst Hsecond.
  assert (Hagg : aggregate (Corpus (files1 ++ f :: files2) matches) target_puuid
                 = aggregate (Corpus (files1 ++ files2) matches) target_puuid).
  { unfold aggregate, build_participant_map. simpl timeline_files.
    change (resolve_step (Corpus (files1 ++ f :: files2) matches) target_puuid)
      with (resolve_step (Corpus (files1 ++ files2) matches) target_puuid).
    rewrite !foldl_app. simpl. by rewrite Hfirst, Hsecond. }
  unfold generate_heatmap_data. simpl timeline_files.
  destruct files1 as [|x files1]; [destruct files2 as [|y files2] |];
    simpl app in *; cbv match; by rewrite Hagg.
Qed.

(** X17: the timelines directory is listed by [glob("timeline_*.json")],
    which never lists a file named [fetch_summary.json]: the name test at
    the head of both loops holds of no listed file, and a directory with the
    summary artifact gives the response and the calls of the directory
    without it. *)
Theorem summary_artifact_never_listed (entries1 : list file) (f : file)
    (entries2 : list file) (matches : json → list file)
    (target_puuid player_name : string) :
  name f = "fetch_summary.json" →
  (∀ g, g ∈ glob_timelines (entries1 ++ f :: entries2) →
        String.eqb (name g) "fetch_summary.json" = false)
  ∧ glob_timelines (entries1 ++ f :: entries2) = glob_timelines (entries1 ++ entries2)
  ∧ generate_heatmap_data
      (Corpus (glob_timelines (entries1 ++ f :: entries2)) matches)
      target_puuid player_name
    = generate_heatmap_data
        (Corpus (glob_timelines (entries1 ++ entries2)) matches)
        target_puuid player_name.
Proof.
  intros Hname.
  assert (Hlist : glob_timelines (entries1 ++ f :: entries2)
                  = glob_timelines (entries1 ++ entries2)).
  { unfold glob_timelines. rewrite !List.filter_app. simpl. by rewrite Hname. }
  split; [| by rewrite Hlist].
  intros g [_ Hg]%list_elem_of_In%List.filter_In.
  apply andb_prop in Hg as [Hprefix _].
  destruct (String.eqb_spec (name g) "fetch_summary.json") as [Heq|]; [| done].
  by rewrite Heq in Hprefix.
Qed.

Lemma summary_artifact_never_listed_witness :
  (∀ g, g ∈ glob_timelines
              ([Example2.known_match_file] ++ Example2.summary_file
                 :: [Example2.readme_file]) →
        String.eqb (name g) "fetch_summary.json" = false)
  ∧ glob_timelines
      ([Example2.known_match_file] ++ Example2.summary_file
         :: [Example2.readme_file])
    = glob_timelines ([Example2.known_match_file] ++ [Example2.readme_file])
  ∧ generate_heatmap_data
      (Corpus (glob_timelines
                 ([Example2.known_match_file] ++ Example2.summary_file
                    :: [Example2.readme_file]))
         Example1.matches) "me" "Player"
    = generate_heatmap_data
        (Corpus (glob_timelines
                   ([Example2.known_match_file] ++ [Example2.readme_file]))
           Example1.matches) "me" "Player".
Proof.
  apply (summary_artifact_never_listed [Example2.known_match_file]
           Example2.summary_file [Example2.readme_file] Example1.matches
           "me" "Player").
  reflexivity.
Defined.


(** ** What the second loop keeps *)

Section Growth.

Implicit Types (a : accum) (p : Z) (match_id : json).

Lemma grows_refl a : grows a a.
Proof. intros cat. split; [done | lia]. Qed.

Lemma grows_trans a1 a2 a3 : grows a1 a2 → grows a2 a3 → grows a1 a3.
Proof.
  intros H12 H23 cat. destruct (H12 cat) as [Hp Hc], (H23 cat) as [Hp' Hc'].
  split; [by etransitivity | lia].
Qed.

Lemma grows_record cat point minute a : grows a (record_event cat point minute a).
Proof.
  intros cat'. simpl. destruct (decide (cat = cat')) as [<-|Hne].
  - rewrite !cat_get_upd_eq. split; [by apply prefix_app_r | lia].
  - rewrite !cat_get_upd_ne by done. split; [done | lia].
Qed.

Lemma grows_event p match_id a event a' :
  process_event p match_id a event = Some a' → grows a a'.
Proof.
  intros [->|(cat & point & minute & _ & ->)]%process_event_cases;
    [apply grows_refl | apply grows_record].
Qed.

Lemma grows_events p match_id events a :
  grows a (process_events p match_id a events).1.
Proof.
  revert a. induction events as [|event events IH]; intros a; [apply grows_refl |].
  simpl. destruct (process_event _ _ _ event) as [a'|] eqn:He; [| done].
  eapply grows_trans; [| apply IH].
  apply grows_event in He. exact He.
Qed.

Lemma grows_frames p match_id frames a :
  grows a (process_frames p match_id a frames).1.
Proof.
  revert a. induction frames as [|frame frames IH]; intros a; [apply grows_refl |].
  simpl. destruct (py_get frame "events" (JArr []) ≫= py_iter) as [events|];
    [| apply grows_refl].
  destruct (process_events p match_id a events).2 eqn:Hr.
  - apply grows_events.
  - eapply grows_trans; [apply grows_events | apply IH].
Qed.

End Growth.

(** X18: processing a timeline record only appends: every heatmap list
    after it starts with the list before it, in the same order, and no
    counter decreases, also when the record raises half-way. *)
Theorem points_only_appended (pmap : gmap pykey Z) (a : accum) (f : file)
    (cat : category) :
  cat_get cat (heatmap_data a)
    `prefix_of` cat_get cat (heatmap_data (process_timeline pmap a f))
  ∧ cat_get cat (counts (stats a))
    ≤ cat_get cat (counts (stats (process_timeline pmap a f))).
Proof.
  revert cat. change (grows a (process_timeline pmap a f)).
  unfold process_timeline. repeat case_match; try apply grows_refl.
  apply grows_frames.
Qed.

(** ** Where the points come from *)

Section Provenance.

Variable pmap : gmap pykey Z.

Implicit Types (a : accum) (p : Z) (match_id : json).

Lemma points_from_resolved_event p match_id k a event a' :
  hash_key match_id = Some k →
  is_Some (pmap !! k) →
  process_event p match_id a event = Some a' →
  points_from_resolved pmap a → points_from_resolved pmap a'.
Proof.
  intros Hk Hin He Ha.
  destruct (process_event_effect p match_id event) as (e & Hsound & Heff).
  rewrite Heff in He. destruct e as [| |cat point minute]; simpl in He;
    [done | by injection He as <- |].
  injection He as <-.
  destruct Hsound as (pos & x & y & timestamp & peer_key & peer
                      & _ & _ & _ & _ & Hminute & Hkey & ->).
  intros cat' point'. simpl. destruct (decide (cat = cat')) as [<-|Hne].
  - rewrite cat_get_upd_eq. intros [Hold|Hnew%list_elem_of_singleton]%elem_of_app.
    + by apply Ha.
    + subst point'. exists x, y, timestamp, match_id, peer_key, peer, k.
      repeat split; done.
  - rewrite cat_get_upd_ne by done. apply Ha.
Qed.

Lemma points_from_resolved_events p match_id k events a :
  hash_key match_id = Some k →
  is_Some (pmap !! k) →
  points_from_resolved pmap a →
  points_from_resolved pmap (process_events p match_id a events).1.
Proof.
  intros Hk Hin. revert a.
  induction events as [|event events IH]; intros a Ha; [done |].
  simpl. destruct (process_event _ _ _ event) as [a'|] eqn:He; [| done].
  apply IH. by eapply points_from_resolved_event.
Qed.

Lemma points_from_resolved_frames p match_id k frames a :
  hash_key match_id = Some k →
  is_Some (pmap !! k) →
  points_from_resolved pmap a →
  points_from_resolved pmap (process_frames p match_id a frames).1.
Proof.
  intros Hk Hin. revert a.
  induction frames as [|frame frames IH]; intros a Ha; [done |].
  simpl. destruct (py_get frame "events" (JArr []) ≫= py_iter) as [events|];
    [| done].
  destruct (process_events p match_id a events).2 eqn:Hr.
  - by eapply points_from_resolved_events.
  - apply IH. by eapply points_from_resolved_events.
Qed.

Lemma points_from_resolved_timeline a f :
  points_from_resolved pmap a →
  points_from_resolved pmap (process_timeline pmap a f).
Proof.
  intros Ha. unfold process_timeline.
  destruct (String.eqb (name f) "fetch_summary.json"); [done |].
  destruct (load f) as [timeline_data|]; [| done].
  destruct (match_id_of timeline_data) as [match_id|]; [| done].
  destruct (hash_key match_id) as [k|] eqn:Hk; [| done].
  destruct (pmap !! k) as [p|] eqn:Hp; [| done].
  destruct (info ← subscript timeline_data "info";
            frames ← subscript info "frames"; py_iter frames) as [frames|];
    [| done].
  eapply points_from_resolved_frames; [exact Hk | by rewrite Hp | done].
Qed.

Lemma points_from_resolved_fold files a :
  points_from_resolved pmap a →
  points_from_resolved pmap (foldl (process_timeline pmap) a files).
Proof.
  revert a. induction files as [|f files IH]; intros a Ha; [done |].
  simpl. apply IH. by apply points_from_resolved_timeline.
Qed.

End Provenance.

(** X19: every heatmap point of a response is a dictionary with exactly
    the keys [x], [y], [timestamp], [match_id] and the peer key of its
    category, and its match id is that of a match for which the player was
    resolved. *)
Theorem heatmap_points_well_formed (c : corpus) (target_puuid player_name : string)
    (cat : category) (points : list pyval) (point : pyval) :
  heatmap_of (generate_heatmap_data c target_puuid player_name).1 cat = Some points →
  point ∈ points →
  ∃ x y timestamp match_id peer_key peer k,
    point = point_dict x y timestamp match_id peer_key peer
    ∧ peer_key_of cat peer_key
    ∧ hash_key match_id = Some k
    ∧ is_Some ((build_participant_map c target_puuid).1 !! k).
Proof.
  rewrite generate_fst, heatmap_of_response. intros [= <-].
  revert cat point. unfold aggregate. simpl snd.
  change (points_from_resolved (build_participant_map c target_puuid).1
            (foldl (process_timeline (build_participant_map c target_puuid).1)
               (initial_accum (build_participant_map c target_puuid).1
                  (build_participant_map c target_puuid).2)
               (timeline_files c))).
  apply points_from_resolved_fold.
  intros cat point. simpl. rewrite cat_get_all. by intros ?%elem_of_nil.
Qed.

Lemma heatmap_points_well_formed_witness :
  ∃ x y timestamp match_id peer_key peer k,
    Example1.kill_point = point_dict x y timestamp match_id peer_key peer
    ∧ peer_key_of kills peer_key
    ∧ hash_key match_id = Some k
    ∧ is_Some ((build_participant_map
                  (Example1.corpus_of [Example1.kill_event]) "me").1 !! k).
Proof.
  apply (heatmap_points_well_formed (Example1.corpus_of [Example1.kill_event])
           "me" "Player" kills [Example1.kill_point] Example1.kill_point).
  - vm_compute. reflexivity.
  - left.
Defined.

(** ** Series and points, negative timestamps included *)

Section Accounting.

Implicit Types (points : list pyval) (minutes : list Z).

Lemma point_minute_nonneg (p : pyval) : 0 ≤ point_minute p ↔ 0 ≤ point_timestamp p.
Proof.
  unfold point_minute.
  pose proof (Z.div_mod (point_timestamp p) 60000).
  pose proof (Z.mod_pos_bound (point_timestamp p) 60000). lia.
Qed.

Lemma nonneg_points_minutes points M :
  (∀ m, m ∈ point_minute <$> points → m ≤ M) →
  Z.of_nat (length (filter (λ k, k ∈ seqZ 0 (M + 1)) (point_minute <$> points)))
  = nonneg_points points.
Proof.
  unfold nonneg_points. intros Hub. f_equal.
  induction points as [|p points IH]; [done |].
  rewrite fmap_cons, !filter_cons.
  assert (Hp : point_minute p ≤ M) by (apply Hub; left).
  assert (IH' : length (filter (λ k, k ∈ seqZ 0 (M + 1)) (point_minute <$> points))
                = length (filter (λ p, 0 ≤ point_timestamp p) points))
    by (apply IH; intros m Hm; apply Hub; by right).
  destruct (decide (0 ≤ point_timestamp p)) as [Hts|Hts].
  - rewrite decide_True; [simpl; by rewrite IH' |].
    apply elem_of_seqZ. apply point_minute_nonneg in Hts. lia.
  - rewrite decide_False; [done |].
    rewrite elem_of_seqZ. rewrite <- point_minute_nonneg in Hts. lia.
Qed.

Lemma nonneg_points_pos points (p : pyval) :
  p ∈ points → 0 ≤ point_minute p → 0 < nonneg_points points.
Proof.
  intros Hp Hm. unfold nonneg_points.
  assert (Hf : p ∈ filter (λ p, 0 ≤ point_timestamp p) points).
  { apply list_elem_of_filter. split; [by apply point_minute_nonneg | done]. }
  destruct (filter (λ p, 0 ≤ point_timestamp p) points);
    [by apply elem_of_nil in Hf | simpl; lia].
Qed.

(** The series of the buckets of [points]: what its counts add up to, and
    its last entry. *)
Lemma format_accounts points total :
  let series :=
    _format_timeline_data (record_minutes (point_minute <$> points)) total in
  sum_counts series = nonneg_points points
  ∧ (∀ e, last series = Some e →
          entry_cumulative e = nonneg_points points
          ∧ 0 < entry_count e
          ∧ entry_minute e = Z.of_nat (length series) - 1)
  ∧ (series = [] ↔ nonneg_points points = 0).
Proof.
  simpl. destruct points as [|p0 points].
  { split; [done |]. split; [done |]. done. }
  set (minutes := point_minute <$> p0 :: points).
  assert (Hne : minutes ≠ []) by done.
  rewrite format_record_minutes by done.
  destruct (max_keys_record minutes Hne) as [Hmax Hub].
  set (M := max_keys (record_minutes minutes)) in *.
  assert (Hsum : foldr (λ i acc, raw_count minutes i + acc) 0 (seqZ 0 (M + 1))
                 = nonneg_points (p0 :: points)).
  { rewrite raw_count_sum by apply NoDup_seqZ. by apply nonneg_points_minutes. }
  split; [by rewrite sum_counts_entries |].
  destruct (decide (0 ≤ M)) as [HM|HM].
  - split.
    + intros e. rewrite fmap_last, length_fmap, length_seqZ.
      replace (M + 1) with (Z.of_nat (S (Z.to_nat M))) at 1 by lia.
      rewrite seqZ_S, last_snoc. simpl. intros [= <-].
      rewrite entry_cumulative_eq, entry_count_eq, entry_minute_eq.
      rewrite Z2Nat.id, Z.add_0_l by done.
      split; [exact Hsum |]. split; [by apply raw_count_pos | lia].
    + apply list_elem_of_fmap in Hmax as (p & HpM & Hp).
      assert (0 < nonneg_points (p0 :: points))
        by (apply (nonneg_points_pos _ p); [done | by rewrite <- HpM]).
      split; [| lia].
      replace (M + 1) with (Z.of_nat (S (Z.to_nat M))) by lia.
      rewrite seqZ_S, fmap_app. intros Hnil. by apply app_nil in Hnil as [_ ?].
  - rewrite seqZ_nil in * by lia. simpl in *. split; [done |]. by split.
Qed.

End Accounting.

(** X20: in every response and for every category, the summary counter is
    the number of heatmap points of that category. *)
Theorem counter_is_number_of_points (c : corpus) (target_puuid player_name : string)
    (cat : category) :
  ∃ points,
    heatmap_of (generate_heatmap_data c target_puuid player_name).1 cat
    = Some points
    ∧ counter_of (generate_heatmap_data c target_puuid player_name).1 cat
      = Some (Z.of_nat (length points)).
Proof.
  destruct (response_category c target_puuid player_name cat)
    as (points & total & Hh & Hc & _). by exists points.
Qed.

(** X21: the series of a category accounts for exactly the heatmap points
    whose timestamp is not negative: their number is what the per-minute
    counts add up to and what the last cumulative total shows. *)
Theorem series_accounts_nonneg_points (c : corpus)
    (target_puuid player_name : string) (cat : category)
    (points series : list pyval) :
  heatmap_of (generate_heatmap_data c target_puuid player_name).1 cat = Some points →
  timeline_of (generate_heatmap_data c target_puuid player_name).1 cat = Some series →
  sum_counts series = nonneg_points points
  ∧ ∀ e, last series = Some e → entry_cumulative e = nonneg_points points.
Proof.
  destruct (response_category c target_puuid player_name cat)
    as (points' & total & Hh & _ & Ht & _). simpl in *.
  rewrite Hh, Ht. intros [= <-] [= <-].
  destruct (format_accounts points' total) as (Hsum & Hlast & _).
  split; [done |]. intros e He. by apply Hlast.
Qed.

Lemma series_accounts_nonneg_points_witness :
  sum_counts [timeline_entry 0 0 0 1; timeline_entry 1 1 1 1]
  = nonneg_points [Example1.kill_point; point_dict (JInt 100) (JInt 200)
                                          (JInt (-1)) (JStr "M1") "victim_id"
                                          (JInt 7)]
  ∧ ∀ e, last [timeline_entry 0 0 0 1; timeline_entry 1 1 1 1] = Some e →
         entry_cumulative e
         = nonneg_points [Example1.kill_point; point_dict (JInt 100) (JInt 200)
                                                 (JInt (-1)) (JStr "M1")
                                                 "victim_id" (JInt 7)].
Proof.
  apply (series_accounts_nonneg_points
           (Example1.corpus_of [Example1.kill_event; Example1.early_event])
           "me" "Player" kills); vm_compute; reflexivity.
Defined.


(** X22: the series of a category is empty exactly when the category has
    no heatmap point with a timestamp that is not negative. *)
Theorem series_empty_iff (c : corpus) (target_puuid player_name : string)
    (cat : category) (points series : list pyval) :
  heatmap_of (generate_heatmap_data c target_puuid player_name).1 cat = Some points →
  timeline_of (generate_heatmap_data c target_puuid player_name).1 cat = Some series →
  series = [] ↔ nonneg_points points = 0.
Proof.
  destruct (response_category c target_puuid player_name cat)
    as (points' & total & Hh & _ & Ht & _). simpl in *.
  rewrite Hh, Ht. intros [= <-] [= <-].
  by destruct (format_accounts points' total) as (_ & _ & Hempty).
Qed.

Lemma series_empty_iff_witness :
  ([] : list pyval) = []
  ↔ nonneg_points [point_dict (JInt 100) (JInt 200) (JInt (-1)) (JStr "M1")
                     "victim_id" (JInt 7)] = 0.
Proof.
  apply (series_empty_iff (Example1.corpus_of [Example1.early_event])
           "me" "Player" kills); vm_compute; reflexivity.
Defined.


(** X23: a series that is not empty ends at a minute in which at least one
    event was recorded, and it has one entry more than that minute's
    number: no series ends with entries of count 0. *)
Theorem series_ends_with_event (c : corpus) (target_puuid player_name : string)
    (cat : category) (series : list pyval) (e : pyval) :
  timeline_of (generate_heatmap_data c target_puuid player_name).1 cat = Some series →
  last series = Some e →
  0 < entry_count e ∧ entry_minute e = Z.of_nat (length series) - 1.
Proof.
  destruct (response_category c target_puuid player_name cat)
    as (points' & total & _ & _ & Ht & _). simpl in *.
  rewrite Ht. intros [= <-] He.
  destruct (format_accounts points' total) as (_ & Hlast & _).
  by destruct (Hlast e He) as (_ & ? & ?).
Qed.

Lemma series_ends_with_event_witness :
  0 < entry_count (timeline_entry 1 1 1 1)
  ∧ entry_minute (timeline_entry 1 1 1 1)
    = Z.of_nat (length [timeline_entry 0 0 0 1; timeline_entry 1 1 1 1]) - 1.
Proof.
  apply (series_ends_with_event (Example1.corpus_of [Example1.kill_event])
           "me" "Player" kills); vm_compute; reflexivity.
Defined.

(** ** The loop of the formatter, for any bucket dictionary *)

Section Recurrence.

Implicit Types (b : gmap Z Z) (s len total : Z).

Lemma foldr_add_init (g : Z → Z) (l : list Z) (c : Z) :
  foldr (λ i acc, g i + acc) c l = foldr (λ i acc, g i + acc) 0 l + c.
Proof. induction l as [|i l IH]; simpl; [lia | rewrite IH; lia]. Qed.

Lemma range_sum_snoc b s (n : nat) :
  range_sum b s (Z.of_nat (S n))
  = range_sum b s (Z.of_nat n) + default 0 (b !! (s + Z.of_nat n)).
Proof.
  unfold range_sum. rewrite seqZ_S, foldr_app. simpl.
  rewrite foldr_add_init. lia.
Qed.

(** The entry at position [i] of a series. *)
Lemma format_lookup b total (i : nat) e :
  _format_timeline_data b total !! i = Some e →
  e = timeline_entry (Z.of_nat i) (default 0 (b !! Z.of_nat i))
        (range_sum b 0 (Z.of_nat (S i))) total.
Proof.
  unfold _format_timeline_data. case_decide; [done |].
  destruct (decide (0 ≤ max_keys b + 1)) as [Hle|Hlt];
    [| by rewrite seqZ_nil by lia].
  rewrite <- (Z2Nat.id (max_keys b + 1)) by done.
  rewrite format_loop_seqZ, list_lookup_fmap.
  destruct (seqZ 0 (Z.of_nat (Z.to_nat (max_keys b + 1))) !! i) as [m|] eqn:Hm;
    [| done].
  apply lookup_seqZ in Hm as [-> _]. simpl. intros [= <-].
  rewrite !Z.add_0_l. do 2 f_equal. lia.
Qed.

End Recurrence.

(** X24: in the series of any bucket dictionary the entry at position [i]
    has minute [i] and the dictionary's count for minute [i] (0 when the
    minute is missing), and its cumulative total is its own count added to
    the cumulative total of the entry before it, or to 0 for the first
    entry. *)
Theorem series_recurrence (b : gmap Z Z) (total : Z) (i : nat) (e : pyval) :
  _format_timeline_data b total !! i = Some e →
  entry_minute e = Z.of_nat i
  ∧ entry_count e = default 0 (b !! Z.of_nat i)
  ∧ entry_cumulative e
    = entry_count e
      + match i with
        | O => 0
        | S j =>
            default 0 (entry_cumulative <$> _format_timeline_data b total !! j)
        end.
Proof.
  intros He. pose proof (format_lookup b total i e He) as ->.
  rewrite entry_minute_eq, entry_count_eq, entry_cumulative_eq.
  split; [done |]. split; [done |].
  rewrite range_sum_snoc, Z.add_0_l. destruct i as [|j].
  - unfold range_sum. rewrite seqZ_nil by lia. simpl. lia.
  - assert (Hj : is_Some (_format_timeline_data b total !! j)).
    { apply lookup_lt_is_Some. apply lookup_lt_Some in He. lia. }
    destruct Hj as [e' He']. rewrite He'. simpl.
    pose proof (format_lookup b total j e' He') as ->.
    rewrite entry_cumulative_eq. lia.
Qed.

Lemma series_recurrence_witness :
  entry_minute (timeline_entry 1 1 1 1) = Z.of_nat 1
  ∧ entry_count (timeline_entry 1 1 1 1) = default 0 (bump 1 ∅ !! Z.of_nat 1)
  ∧ entry_cumulative (timeline_entry 1 1 1 1)
    = entry_count (timeline_entry 1 1 1 1)
      + default 0 (entry_cumulative <$> _format_timeline_data (bump 1 ∅) 1 !! 0%nat).
Proof.
  apply (series_recurrence (bump 1 ∅) 1 1 (timeline_entry 1 1 1 1)).
  vm_compute. reflexivity.
Defined.

Lemma average_operands_witness :
  ∃ resolved,
    total_matches_of
      (generate_heatmap_data (Example1.corpus_of [Example1.kill_event])
         "me" "Player").1 = Some resolved
    ∧ 1 ≤ Z.max 1 resolved
    ∧ vget "average_per_game" (timeline_entry 1 1 1 1)
      = Some (VFloat (Round2Div (entry_count (timeline_entry 1 1 1 1))
                        (Z.max 1 resolved))).
Proof.
  apply (average_operands (Example1.corpus_of [Example1.kill_event])
           "me" "Player" kills [timeline_entry 0 0 0 1; timeline_entry 1 1 1 1]).
  - vm_compute. reflexivity.
  - right. left.
Defined.

(** ** The order of the timeline files *)

Section Order.

Variable c : corpus.
Variable target_puuid : string.

Lemma fold_entries_is_Some (files : list file) (k : pykey) :
  is_Some (foldl (store_resolved c target_puuid) ∅ files !! k)
  ↔ ∃ f p, f ∈ files ∧ resolved_entry c target_puuid f = Some (k, p).
Proof.
  split.
  - intros [p [H|(f & Hf & Hr)]%fold_entries_lookup];
      [by rewrite lookup_empty in H | by exists f, p].
  - intros (f & p & (files1 & files2 & ->)%list_elem_of_split & Hr).
    rewrite foldl_app. simpl. apply fold_entries_keeps.
    unfold store_resolved. rewrite Hr, lookup_insert_eq. by eexists.
Qed.

End Order.

(** X26: [total_matches] does not depend on the order in which the glob
    lists the timeline files. *)
Theorem total_matches_order_independent (files files' : list file)
    (matches : json → list file) (target_puuid player_name : string) :
  files ≡ₚ files' →
  total_matches_of
    (generate_heatmap_data (Corpus files matches) target_puuid player_name).1
  = total_matches_of
      (generate_heatmap_data (Corpus files' matches) target_puuid player_name).1.
Proof.
  intros Hperm. rewrite !total_matches_of_generate. do 2 f_equal.
  rewrite !build_participant_map_fold. simpl timeline_files.
  change (store_resolved (Corpus files' matches) target_puuid)
    with (store_resolved (Corpus files matches) target_puuid).
  rewrite <- !(size_dom (D := gset pykey)). f_equal.
  apply set_eq. intros k. rewrite !elem_of_dom, !fold_entries_is_Some.
  split; intros (f & p & Hf & Hr); exists f, p; split; try done.
  - by rewrite <- Hperm.
  - by rewrite Hperm.
Qed.

Lemma total_matches_order_independent_witness :
  total_matches_of
    (generate_heatmap_data
       (Corpus [Example2.known_match_file; Example2.unknown_match_file]
          Example1.matches) "me" "Player").1
  = total_matches_of
      (generate_heatmap_data
         (Corpus [Example2.unknown_match_file; Example2.known_match_file]
            Example1.matches) "me" "Player").1.
Proof.
  apply (total_matches_order_independent
           [Example2.known_match_file; Example2.unknown_match_file]
           [Example2.unknown_match_file; Example2.known_match_file]
           Example1.matches "me" "Player").
  apply perm_swap.
Defined.

(** ** Series entries and heatmap points *)

Lemma raw_count_fmap (points : list pyval) (m : Z) :
  raw_count (point_minute <$> points) m
  = Z.of_nat (length (filter (λ p, point_minute p = m) points)).
Proof.
  unfold raw_count. f_equal.
  induction points as [|p points IH]; [done |].
  rewrite fmap_cons, !filter_cons.
  destruct (decide (point_minute p = m)); simpl; by rewrite IH.
Qed.

(** X27: the entry at position [i] of a category's series is the entry of
    minute [i], and its count is the number of that category's heatmap
    points whose timestamp falls in minute [i]. *)
Theorem entry_counts_points_of_minute (c : corpus)
    (target_puuid player_name : string) (cat : category)
    (points series : list pyval) (i : nat) (e : pyval) :
  heatmap_of (generate_heatmap_data c target_puuid player_name).1 cat = Some points →
  timeline_of (generate_heatmap_data c target_puuid player_name).1 cat = Some series →
  series !! i = Some e →
  entry_minute e = Z.of_nat i
  ∧ entry_count e
    = Z.of_nat (length (filter (λ p, point_minute p = Z.of_nat i) points)).
Proof.
  destruct (response_category c target_puuid player_name cat)
    as (points' & total & Hh & _ & Ht & _). simpl in *.
  rewrite Hh, Ht. intros [= <-] [= <-] He.
  apply format_lookup in He as ->.
  rewrite entry_minute_eq, entry_count_eq. split; [done |].
  by rewrite count_record_minutes, raw_count_fmap.
Qed.

Lemma entry_counts_points_of_minute_witness :
  entry_minute (timeline_entry 1 1 1 1) = Z.of_nat 1
  ∧ entry_count (timeline_entry 1 1 1 1)
    = Z.of_nat (length (filter (λ p, point_minute p = Z.of_nat 1)
                          [Example1.kill_point])).
Proof.
  apply (entry_counts_points_of_minute
           (Example1.corpus_of [Example1.kill_event]) "me" "Player" kills
           [Example1.kill_point]
           [timeline_entry 0 0 0 1; timeline_entry 1 1 1 1] 1);
    vm_compute; reflexivity.
Defined.
